(** * The Upload/Ask client ([backend/static/js/app.js])

    A shallow embedding of the browser script: the module-level
    [DATASET_ID], the DOM elements it writes, and the handlers
    [handleUpload], [renderMeta], [askQuestion] and the PNG download
    click handler.  Calls that leave the script ([fetch], [Plotly],
    [alert], [console.error], the anchor click) are recorded in a log,
    and what the outside answers is supplied by a [host] record. *)

From Stdlib Require Import List ZArith NArith Bool Lia.
From Stdlib Require Import Ascii String DecimalString.
Import ListNotations.

Local Open Scope list_scope.
Local Set Warnings "-register-all".

(** ** Strings

    A JavaScript string is a sequence of UTF-16 code units.  [lit]
    embeds an ASCII literal of the source. *)

Definition code_unit := N.
Definition jstring := list code_unit.

Definition lit (s : string) : jstring :=
  map N_of_ascii (list_ascii_of_string s).

Definition code_unit_eqb : code_unit -> code_unit -> bool := N.eqb.

Fixpoint jstring_eqb (a b : jstring) : bool :=
  match a, b with
  | [], [] => true
  | x :: a', y :: b' => code_unit_eqb x y && jstring_eqb a' b'
  | _, _ => false
  end.

(** WhiteSpace and LineTerminator of ECMAScript: the code units that
    [String.prototype.trim] strips. *)
Definition is_white_space (c : code_unit) : bool :=
  ((9 <=? c) && (c <=? 13)             (* TAB LF VT FF CR *)
   || (c =? 32) || (c =? 160)          (* SP, NBSP *)
   || (c =? 5760)                      (* U+1680 *)
   || ((8192 <=? c) && (c <=? 8202))   (* U+2000 .. U+200A *)
   || (c =? 8232) || (c =? 8233)       (* LS, PS *)
   || (c =? 8239) || (c =? 8287)       (* U+202F, U+205F *)
   || (c =? 12288) || (c =? 65279))%N. (* U+3000, U+FEFF *)

Fixpoint trimStart (s : jstring) : jstring :=
  match s with
  | c :: s' => if is_white_space c then trimStart s' else s
  | [] => []
  end.

Definition trimEnd (s : jstring) : jstring := rev (trimStart (rev s)).

Definition trim (s : jstring) : jstring := trimEnd (trimStart s).

(** Decimal text of a length and of an integer-valued number. *)
Definition decimal_of_nat (n : nat) : jstring :=
  lit (NilEmpty.string_of_uint (Nat.to_uint n)).

Definition decimal_of_Z (z : Z) : jstring :=
  lit (NilZero.string_of_int (Z.to_int z)).

(** ** Values

    What [resp.json()] can produce, plus [undefined] and the built-in
    functions and prototype objects that a property read can reach.
    An object keeps its fields in the order of the payload, and a read
    takes the first field with the key. *)

(** A number is kept as what the script can observe of it: the text
    that Number::toString gives (the decimal digits of an integer below
    10^21, exponent notation from there on, the digits of a fraction,
    "Infinity") and whether it is truthy (neither zero nor NaN).  The
    script never computes with a number of a payload. *)
Record number := { number_text : jstring; number_truthy : bool }.

(** The integer [z], for [z] of magnitude below 2^53. *)
Definition integer (z : Z) : number :=
  {| number_text := decimal_of_Z z; number_truthy := negb (z =? 0)%Z |}.

Inductive value : Type :=
| VUndefined
| VNull
| VBool (b : bool)
| VNum (x : number)
| VStr (s : jstring)
| VArr (items : list value)
| VObj (fields : list (jstring * value))
| VBuiltin (text : jstring).   (* a built-in function or prototype object,
                                  kept as the text its conversion gives *)

(** ToBoolean: what [!x], [x || y], [x && y] and [x ? y : z] test. *)
Definition truthy (v : value) : bool :=
  match v with
  | VUndefined | VNull => false
  | VBool b => b
  | VNum x => number_truthy x
  | VStr s => match s with [] => false | _ => true end
  | VArr _ | VObj _ | VBuiltin _ => true
  end.

Fixpoint assoc (k : jstring) (fields : list (jstring * value)) : option value :=
  match fields with
  | [] => None
  | (k', v) :: rest => if jstring_eqb k k' then Some v else assoc k rest
  end.

(** ToString: what a template literal, [+] with a string, a property
    key, [new Error(x)] and an assignment to [innerText] apply.  [None]
    is the TypeError of a conversion that finds no primitive.  An array
    joins the texts of its elements ([null] gives the empty text).  An
    object of a payload gives "[object Object]" through
    [Object.prototype.toString], unless it has an own field [toString]:
    that field is not callable, [Object.prototype.valueOf] returns the
    object itself, and the conversion throws. *)
Fixpoint to_string (v : value) : option jstring :=
  match v with
  | VUndefined => Some (lit "undefined")
  | VNull => Some (lit "null")
  | VBool true => Some (lit "true")
  | VBool false => Some (lit "false")
  | VNum x => Some (number_text x)
  | VStr s => Some s
  | VArr items =>
      (fix join (l : list value) : option jstring :=
         match l with
         | [] => Some []
         | x :: rest =>
             match (match x with
                    | VUndefined | VNull => Some []
                    | _ => to_string x
                    end) with
             | None => None
             | Some piece =>
                 match rest with
                 | [] => Some piece
                 | _ => match join rest with
                        | Some tail => Some (piece ++ lit "," ++ tail)
                        | None => None
                        end
                 end
             end
         end) items
  | VObj fields =>
      match assoc (lit "toString") fields with
      | Some _ => None
      | None => Some (lit "[object Object]")
      end
  | VBuiltin text => Some text
  end.

(** *** Property reads *)

(** The text of a built-in function. *)
Definition native (name : jstring) : jstring :=
  lit "function " ++ name ++ lit "() { [native code] }".

(** The built-in prototypes a value of a payload inherits from, with
    their methods as of ECMAScript 2023 (Annex B included). *)
Inductive prototype : Type :=
| Object_prototype | Array_prototype | String_prototype
| Number_prototype | Boolean_prototype.

Definition Object_prototype_methods : list jstring :=
  map lit
    [ "hasOwnProperty"; "isPrototypeOf";
      "propertyIsEnumerable"; "toLocaleString"; "toString"; "valueOf";
      "__defineGetter__"; "__defineSetter__";
      "__lookupGetter__"; "__lookupSetter__" ]%string.

Definition methods (p : prototype) : list jstring :=
  map lit
    (match p with
    | Object_prototype => []
    | Array_prototype =>
        [ "at"; "concat"; "copyWithin"; "entries"; "every"; "fill"; "filter";
          "find"; "findIndex"; "findLast"; "findLastIndex"; "flat"; "flatMap";
          "forEach"; "includes"; "indexOf"; "join"; "keys"; "lastIndexOf";
          "map"; "pop"; "push"; "reduce"; "reduceRight"; "reverse"; "shift";
          "slice"; "some"; "sort"; "splice"; "toLocaleString"; "toReversed";
          "toSorted"; "toSpliced"; "toString"; "unshift"; "values"; "with" ]
    | String_prototype =>
        [ "at"; "charAt"; "charCodeAt"; "codePointAt"; "concat"; "endsWith";
          "includes"; "indexOf"; "isWellFormed"; "lastIndexOf";
          "localeCompare"; "match"; "matchAll"; "normalize"; "padEnd";
          "padStart"; "repeat"; "replace"; "replaceAll"; "search"; "slice";
          "split"; "startsWith"; "substring"; "toLocaleLowerCase";
          "toLocaleUpperCase"; "toLowerCase"; "toString"; "toUpperCase";
          "toWellFormed"; "trim"; "trimEnd"; "trimStart"; "valueOf";
          "substr"; "anchor"; "big"; "blink"; "bold"; "fixed"; "fontcolor";
          "fontsize"; "italics"; "link"; "small"; "strike"; "sub"; "sup";
          "trimLeft"; "trimRight" ]
    | Number_prototype =>
        [ "toExponential"; "toFixed"; "toLocaleString"; "toPrecision";
          "toString"; "valueOf" ]
    | Boolean_prototype => [ "toString"; "valueOf" ]
    end)%string.

(** The name of the function under a key: [trimLeft] and [trimRight]
    are the functions [trimStart] and [trimEnd]. *)
Definition function_name (k : jstring) : jstring :=
  if jstring_eqb k (lit "trimLeft") then lit "trimStart"
  else if jstring_eqb k (lit "trimRight") then lit "trimEnd"
  else k.

Definition constructor_name (p : prototype) : jstring :=
  lit (match p with
      | Object_prototype => "Object"
      | Array_prototype => "Array"
      | String_prototype => "String"
      | Number_prototype => "Number"
      | Boolean_prototype => "Boolean"
      end)%string.

(** The text of the prototype object itself, which [__proto__] answers:
    [Array.prototype] is an empty array, [String.prototype] wraps the
    empty string, [Number.prototype] wraps 0, [Boolean.prototype] wraps
    [false]. *)
Definition prototype_text (p : prototype) : jstring :=
  lit (match p with
      | Object_prototype => "[object Object]"
      | Array_prototype | String_prototype => ""
      | Number_prototype => "0"
      | Boolean_prototype => "false"
      end)%string.

(** What a key that is not an own property answers, along the chain
    from [p] to [Object.prototype]. *)
Definition inherited_from (p : prototype) (k : jstring) : value :=
  if jstring_eqb k (lit "constructor") then VBuiltin (native (constructor_name p))
  else if existsb (jstring_eqb k) (methods p) then VBuiltin (native (function_name k))
  else if existsb (jstring_eqb k) Object_prototype_methods then VBuiltin (native k)
  else if jstring_eqb k (lit "__proto__") then VBuiltin (prototype_text p)
  else VUndefined.

Definition inherited (k : jstring) : value := inherited_from Object_prototype k.

(** The array index that a key denotes: the key is the decimal text of
    a number, without sign or leading zero. *)
Definition digit_of (c : code_unit) : option N :=
  if ((48 <=? c) && (c <=? 57))%N then Some (c - 48)%N else None.

Fixpoint number_of_digits (acc : N) (s : jstring) : option N :=
  match s with
  | [] => Some acc
  | c :: s' =>
      match digit_of c with
      | Some d => number_of_digits (10 * acc + d)%N s'
      | None => None
      end
  end.

Definition index_of (k : jstring) : option nat :=
  match k with
  | [] => None
  | _ =>
      match number_of_digits 0%N k with
      | Some n =>
          if jstring_eqb (decimal_of_nat (N.to_nat n)) k
          then Some (N.to_nat n) else None
      | None => None
      end
  end.

(** Property read [v.k] / [v[k]] on a value other than [null] and
    [undefined]: an own property (a field of an object, an element or
    the [length] of an array, a code unit or the [length] of a string),
    else what the value inherits.  A built-in is never read from. *)
Definition member (v : value) (k : jstring) : value :=
  match v with
  | VObj fields =>
      match assoc k fields with
      | Some x => x
      | None => inherited k
      end
  | VArr items =>
      if jstring_eqb k (lit "length")
      then VNum (integer (Z.of_nat (List.length items)))
      else match index_of k with
           | Some i =>
               match nth_error items i with
               | Some x => x
               | None => inherited_from Array_prototype k
               end
           | None => inherited_from Array_prototype k
           end
  | VStr s =>
      if jstring_eqb k (lit "length")
      then VNum (integer (Z.of_nat (List.length s)))
      else match index_of k with
           | Some i =>
               match nth_error s i with
               | Some c => VStr [c]
               | None => inherited_from String_prototype k
               end
           | None => inherited_from String_prototype k
           end
  | VNum _ => inherited_from Number_prototype k
  | VBool _ => inherited_from Boolean_prototype k
  | VUndefined | VNull | VBuiltin _ => VUndefined
  end.

Definition nullish (v : value) : bool :=
  match v with
  | VUndefined | VNull => true
  | _ => false
  end.

(** Outcome of an expression or statement that may throw; a thrown
    [Error] is kept as its [message]. *)
Inductive outcome (A : Type) : Type :=
| Returns (a : A)
| Throws (message : jstring).
Arguments Returns {A} a.
Arguments Throws {A} message.

(** ** The page and the outside world *)

(** A column card: [div.className] and [div.innerHTML]. *)
Record card := { className : jstring; innerHTML : jstring }.

(** What Plotly keeps on the chart element; the script itself reads
    only [chartDiv.data]. *)
Record graph_div := { gd_data : value; gd_layout : value }.

(** The temporary [<a>] of the PNG download. *)
Record anchor := { href : jstring; download : jstring }.

Record file := { file_name : jstring; file_bytes : list N }.

(** A request body: a [FormData] with its appended parts, or the text
    [JSON.stringify v], kept as [v]. *)
Inductive body : Type :=
| FormData (parts : list (jstring * file))
| JSON_stringify (v : value).

Record request := {
  url : jstring;
  method : jstring;
  headers : list (jstring * jstring);
  req_body : body
}.

(** How [resp.json()] settles, and how [fetch] followed by it does. *)
Inductive json_result : Type :=
| Parsed (data : value)
| Unparsable (message : jstring).

Inductive fetch_result : Type :=
| Rejected (message : jstring)
| Response (ok : bool) (json : json_result).

Record image_options := { format : jstring; height : Z; width : Z }.

(** Calls that leave the script, in the order they are made. *)
Inductive effect : Type :=
| Fetch (r : request)
| Alert (message : jstring)
| ConsoleError (message : jstring)
| NewPlot (data layout : value)   (* on chartDiv, with { responsive: true } *)
| ToImage (opts : image_options)
| Click (a : anchor).

(** What the browser, the backend and Plotly answer.  The page is
    taken to load Plotly.  [Plotly.newPlot] draws into the element and
    returns a promise the script does not await, so a plot that fails
    later never reaches the [catch] of [askQuestion]; the promise of
    [Plotly.toImage] is awaited and may reject. *)
Record host := {
  fetch : request -> fetch_result;
  Plotly_newPlot : graph_div -> value -> value -> graph_div;
  Plotly_toImage : graph_div -> image_options -> outcome jstring;
  (** message of the TypeError raised on reading or calling the named
      member of [null], [undefined] or a value without it *)
  TypeError_message : jstring -> jstring;
  (** message of the TypeError of a conversion to a string that finds
      no primitive *)
  ToPrimitive_message : jstring
}.

(** [DATASET_ID] and the elements the handlers write.  [metaPanel] and
    [chartDiv] are [None] when the page has no such element (the script
    tests both); the other elements are taken to exist, as the handlers
    use them unguarded. *)
Record state := {
  DATASET_ID : value;
  dropzone_p : jstring;            (* dropzone.querySelector("p").innerText *)
  metaPanel : option bool;         (* metaPanel.hidden *)
  metaSummary : jstring;           (* metaSummary.innerHTML *)
  columnsGrid : list card;         (* children of columnsGrid *)
  qaPanel_hidden : bool;           (* qaPanel.hidden *)
  answerDiv : jstring;             (* answerDiv.innerText *)
  previewDiv : jstring;            (* previewDiv.innerText *)
  chartDiv : option graph_div;
  body_children : list anchor;     (* anchors appended to document.body *)
  log : list effect
}.

Definition set_DATASET_ID (v : value) (st : state) : state :=
  {| DATASET_ID := v; dropzone_p := dropzone_p st; metaPanel := metaPanel st;
     metaSummary := metaSummary st; columnsGrid := columnsGrid st;
     qaPanel_hidden := qaPanel_hidden st; answerDiv := answerDiv st;
     previewDiv := previewDiv st; chartDiv := chartDiv st;
     body_children := body_children st; log := log st |}.

Definition set_dropzone_p (s : jstring) (st : state) : state :=
  {| DATASET_ID := DATASET_ID st; dropzone_p := s; metaPanel := metaPanel st;
     metaSummary := metaSummary st; columnsGrid := columnsGrid st;
     qaPanel_hidden := qaPanel_hidden st; answerDiv := answerDiv st;
     previewDiv := previewDiv st; chartDiv := chartDiv st;
     body_children := body_children st; log := log st |}.

Definition set_metaPanel (m : option bool) (st : state) : state :=
  {| DATASET_ID := DATASET_ID st; dropzone_p := dropzone_p st; metaPanel := m;
     metaSummary := metaSummary st; columnsGrid := columnsGrid st;
     qaPanel_hidden := qaPanel_hidden st; answerDiv := answerDiv st;
     previewDiv := previewDiv st; chartDiv := chartDiv st;
     body_children := body_children st; log := log st |}.

Definition set_metaSummary (s : jstring) (st : state) : state :=
  {| DATASET_ID := DATASET_ID st; dropzone_p := dropzone_p st;
     metaPanel := metaPanel st; metaSummary := s; columnsGrid := columnsGrid st;
     qaPanel_hidden := qaPanel_hidden st; answerDiv := answerDiv st;
     previewDiv := previewDiv st; chartDiv := chartDiv st;
     body_children := body_children st; log := log st |}.

Definition set_columnsGrid (c : list card) (st : state) : state :=
  {| DATASET_ID := DATASET_ID st; dropzone_p := dropzone_p st;
     metaPanel := metaPanel st; metaSummary := metaSummary st; columnsGrid := c;
     qaPanel_hidden := qaPanel_hidden st; answerDiv := answerDiv st;
     previewDiv := previewDiv st; chartDiv := chartDiv st;
     body_children := body_children st; log := log st |}.

Definition set_qaPanel_hidden (b : bool) (st : state) : state :=
  {| DATASET_ID := DATASET_ID st; dropzone_p := dropzone_p st;
     metaPanel := metaPanel st; metaSummary := metaSummary st;
     columnsGrid := columnsGrid st; qaPanel_hidden := b;
     answerDiv := answerDiv st; previewDiv := previewDiv st;
     chartDiv := chartDiv st; body_children := body_children st;
     log := log st |}.

Definition set_answerDiv (s : jstring) (st : state) : state :=
  {| DATASET_ID := DATASET_ID st; dropzone_p := dropzone_p st;
     metaPanel := metaPanel st; metaSummary := metaSummary st;
     columnsGrid := columnsGrid st; qaPanel_hidden := qaPanel_hidden st;
     answerDiv := s; previewDiv := previewDiv st; chartDiv := chartDiv st;
     body_children := body_children st; log := log st |}.

Definition set_previewDiv (s : jstring) (st : state) : state :=
  {| DATASET_ID := DATASET_ID st; dropzone_p := dropzone_p st;
     metaPanel := metaPanel st; metaSummary := metaSummary st;
     columnsGrid := columnsGrid st; qaPanel_hidden := qaPanel_hidden st;
     answerDiv := answerDiv st; previewDiv := s; chartDiv := chartDiv st;
     body_children := body_children st; log := log st |}.

Definition set_chartDiv (c : option graph_div) (st : state) : state :=
  {| DATASET_ID := DATASET_ID st; dropzone_p := dropzone_p st;
     metaPanel := metaPanel st; metaSummary := metaSummary st;
     columnsGrid := columnsGrid st; qaPanel_hidden := qaPanel_hidden st;
     answerDiv := answerDiv st; previewDiv := previewDiv st; chartDiv := c;
     body_children := body_children st; log := log st |}.

Definition set_body_children (l : list anchor) (st : state) : state :=
  {| DATASET_ID := DATASET_ID st; dropzone_p := dropzone_p st;
     metaPanel := metaPanel st; metaSummary := metaSummary st;
     columnsGrid := columnsGrid st; qaPanel_hidden := qaPanel_hidden st;
     answerDiv := answerDiv st; previewDiv := previewDiv st;
     chartDiv := chartDiv st; body_children := l; log := log st |}.

Definition set_log (l : list effect) (st : state) : state :=
  {| DATASET_ID := DATASET_ID st; dropzone_p := dropzone_p st;
     metaPanel := metaPanel st; metaSummary := metaSummary st;
     columnsGrid := columnsGrid st; qaPanel_hidden := qaPanel_hidden st;
     answerDiv := answerDiv st; previewDiv := previewDiv st;
     chartDiv := chartDiv st; body_children := body_children st; log := l |}.

(** ** Statements: state passing with exceptions

    A statement transforms the state and either completes or throws;
    what it wrote before throwing stays written. *)

Definition script (A : Type) : Type := state -> state * outcome A.

Definition ret {A} (a : A) : script A := fun st => (st, Returns a).

Definition throw {A} (message : jstring) : script A :=
  fun st => (st, Throws message).

Definition bind {A B} (m : script A) (k : A -> script B) : script B :=
  fun st =>
    match m st with
    | (st', Returns a) => k a st'
    | (st', Throws e) => (st', Throws e)
    end.

Notation "x <- m ;; k" := (bind m (fun x => k))
  (at level 61, m at next level, right associativity).
Notation "m ;; k" := (bind m (fun _ => k))
  (at level 61, right associativity).

(** [try { body } catch (e) { handler e.message }] *)
Definition try_catch (body : script unit) (handler : jstring -> script unit)
  : script unit :=
  fun st =>
    match body st with
    | (st', Returns tt) => (st', Returns tt)
    | (st', Throws e) => handler e st'
    end.

Definition lift {A} (o : outcome A) : script A := fun st => (st, o).

Definition gets {A} (f : state -> A) : script A := fun st => (st, Returns (f st)).

Definition modify (f : state -> state) : script unit :=
  fun st => (f st, Returns tt).

Definition emit (e : effect) : script unit :=
  modify (fun st => set_log (log st ++ [e]) st).

Fixpoint forEach {A} (l : list A) (f : A -> script unit) : script unit :=
  match l with
  | [] => ret tt
  | x :: rest => f x ;; forEach rest f
  end.

(** The state a handler leaves.  An exception that escapes an [async]
    handler rejects its promise and changes nothing more. *)
Definition run (m : script unit) (st : state) : state := fst (m st).

(** Reading a member of [null] or [undefined] throws a TypeError. *)
Definition get (h : host) (v : value) (k : jstring) : outcome value :=
  if nullish v then Throws (TypeError_message h k) else Returns (member v k).


(** [ToString(v)] as a statement: the text, or the TypeError. *)
Definition to_text (h : host) (v : value) : outcome jstring :=
  match to_string v with
  | Some text => Returns text
  | None => Throws (ToPrimitive_message h)
  end.

(** ** renderMeta (lines 91-114) *)

Definition em_dash : jstring := [8212%N].      (* U+2014 *)
Definition bullet : jstring := [8226%N].       (* U+2022 *)
Definition newline : jstring := [10%N].
Definition indent (n : nat) : jstring := repeat 32%N n.

(** The template literal assigned to [metaSummary.innerHTML], from the
    texts of its three substitutions. *)
Definition summary_html (rows cols quickTrend : jstring) : jstring :=
  newline ++ indent 8 ++ lit "<b>Rows:</b> " ++ rows
    ++ lit " " ++ bullet ++ lit " <b>Columns:</b> " ++ cols
    ++ lit "<br/>" ++ newline ++ indent 8 ++ lit "<b>Quick trend:</b> "
    ++ quickTrend ++ newline ++ indent 4.

(** The template literal assigned to a card's [innerHTML], from the
    texts of its two substitutions. *)
Definition card_template (name label : jstring) : jstring :=
  lit "<b>" ++ name ++ lit "</b><br/><small>" ++ label ++ lit "</small>".

(** The same for a column [c] and its [type]; [None] when one of the
    two conversions throws. *)
Definition card_html (c type : value) : option jstring :=
  match to_string c, to_string type with
  | Some name, Some label => Some (card_template name label)
  | _, _ => None
  end.

(** The callback of [forEach] (lines 107-113). *)
Definition column_card (h : host) (meta c : value) : script unit :=
  logical_types <- lift (get h meta (lit "logical_types")) ;;
  type <- (if truthy logical_types
           then key <- lift (to_text h c) ;;
                lift (get h logical_types key)
           else ret (VStr [])) ;;
  name <- lift (to_text h c) ;;
  label <- lift (to_text h type) ;;
  let div := {| className := lit "card";
                innerHTML := card_template name label |} in
  modify (fun st => set_columnsGrid (columnsGrid st ++ [div]) st).

Definition renderMeta (h : host) (meta : value) : script unit :=
  panel <- gets metaPanel ;;
  match panel with
  | None => ret tt
  | Some _ =>
      modify (set_metaPanel (Some false)) ;;
      summary <- lift (get h meta (lit "summary")) ;;
      trend <- (if truthy summary
                then lift (get h summary (lit "quick_trend"))
                else ret summary) ;;
      let quickTrend := if truthy trend then trend else VStr em_dash in
      rows <- lift (get h meta (lit "rows")) ;;
      rows_text <- lift (to_text h rows) ;;
      cols <- lift (get h meta (lit "cols")) ;;
      cols_text <- lift (to_text h cols) ;;
      trend_text <- lift (to_text h quickTrend) ;;
      modify (set_metaSummary (summary_html rows_text cols_text trend_text)) ;;
      modify (set_columnsGrid []) ;;
      columns <- lift (get h meta (lit "columns")) ;;
      match (if truthy columns then columns else VArr []) with
      | VArr items => forEach items (column_card h meta)
      | _ => throw (TypeError_message h (lit "forEach"))
      end
  end.

(** ** handleUpload (lines 55-85) *)

Definition upload_request (f : file) : request :=
  {| url := lit "/api/upload"; method := lit "POST"; headers := [];
     req_body := FormData [(lit "file", f)] |}.

(** [await fetch(...)] then [await resp.json()]: the response with its
    parsed body, or the rejection thrown into the [try]. *)
Definition await_json (r : fetch_result) : script (bool * value) :=
  match r with
  | Rejected message => throw message
  | Response _ (Unparsable message) => throw message
  | Response ok (Parsed data) => ret (ok, data)
  end.

(** The [try] block (lines 65-80) and the [catch] block (82-83). *)
Definition upload_try (h : host) (f : file) : script unit :=
  emit (Fetch (upload_request f)) ;;
  resp <- await_json (fetch h (upload_request f)) ;;
  let (ok, data) := resp in
  (if negb ok
   then error <- lift (get h data (lit "error")) ;;
        message <- lift (to_text h (if truthy error then error
                                    else VStr (lit "Upload failed"))) ;;
        throw message
   else ret tt) ;;
  dataset_id <- lift (get h data (lit "dataset_id")) ;;
  modify (set_DATASET_ID dataset_id) ;;
  meta <- lift (get h data (lit "meta")) ;;
  renderMeta h meta ;;
  modify (set_dropzone_p (lit "Upload complete! Ask a question below.")) ;;
  modify (set_qaPanel_hidden false).

Definition upload_catch (message : jstring) : script unit :=
  emit (ConsoleError message) ;;
  modify (set_dropzone_p (lit "Error: " ++ message)).

(** [file] is [fileInput.files[0]]. *)
Definition handleUpload (h : host) (file : option file) : script unit :=
  match file with
  | None => ret tt
  | Some f =>
      modify (set_dropzone_p (lit "Uploading...")) ;;
      try_catch (upload_try h f) upload_catch
  end.

(** ** askQuestion (lines 130-176) *)

Definition ask_request (dataset_id : value) (q : jstring) : request :=
  {| url := lit "/api/ask"; method := lit "POST";
     headers := [(lit "Content-Type", lit "application/json")];
     req_body := JSON_stringify
                   (VObj [(lit "dataset_id", dataset_id);
                          (lit "question", VStr q)]) |}.

(** Lines 161-165. *)
Definition plot_figure (h : host) (data : value) : script unit :=
  figure <- lift (get h data (lit "figure")) ;;
  chart <- gets chartDiv ;;
  match (if truthy figure then chart else None) with
  | Some gd =>
      traces <- lift (get h figure (lit "data")) ;;
      layout <- lift (get h figure (lit "layout")) ;;
      emit (NewPlot traces layout) ;;
      modify (set_chartDiv (Some (Plotly_newPlot h gd traces layout)))
  | None => ret tt
  end.

(** Lines 167-171. *)
Definition show_preview (h : host) (data : value) : script unit :=
  agg_preview <- lift (get h data (lit "agg_preview")) ;;
  match agg_preview with
  | VArr rows =>
      if (0 <? List.length rows)%nat
      then modify (set_previewDiv
                     (lit "Preview rows: " ++ decimal_of_nat (List.length rows)))
      else modify (set_previewDiv [])
  | _ => modify (set_previewDiv [])
  end.

(** The [try] block (lines 143-171) and the [catch] block (173-174);
    [dataset_id] is [DATASET_ID] as read for the request body. *)
Definition ask_try (h : host) (dataset_id : value) (q : jstring) : script unit :=
  emit (Fetch (ask_request dataset_id q)) ;;
  resp <- await_json (fetch h (ask_request dataset_id q)) ;;
  let (ok, data) := resp in
  (if negb ok
   then error <- lift (get h data (lit "error")) ;;
        message <- lift (to_text h (if truthy error then error
                                    else VStr (lit "Ask failed"))) ;;
        throw message
   else ret tt) ;;
  answer <- lift (get h data (lit "answer")) ;;
  text <- lift (to_text h (if truthy answer then answer
                           else VStr (lit "(No insight returned)"))) ;;
  modify (set_answerDiv text) ;;
  plot_figure h data ;;
  show_preview h data.

Definition ask_catch (message : jstring) : script unit :=
  emit (ConsoleError message) ;;
  modify (set_answerDiv (lit "Error: " ++ message)).

(** [input] is [questionInput.value]. *)
Definition askQuestion (h : host) (input : jstring) : script unit :=
  let q := trim input in
  if negb (truthy (VStr q)) then ret tt else
  dataset_id <- gets DATASET_ID ;;
  if negb (truthy dataset_id)
  then emit (Alert (lit "Upload a dataset first."))
  else
    modify (set_answerDiv (lit "Thinking...")) ;;
    modify (set_previewDiv []) ;;
    try_catch (ask_try h dataset_id q) ask_catch.

(** ** Download chart as PNG (lines 196-219) *)

Definition png_options : image_options :=
  {| format := lit "png"; height := 600; width := 1000 |}.

Definition png_try (h : host) (gd : graph_div) : script unit :=
  emit (ToImage png_options) ;;
  dataUrl <- lift (Plotly_toImage h gd png_options) ;;
  let a := {| href := dataUrl; download := lit "chart.png" |} in
  modify (fun st => set_body_children (body_children st ++ [a]) st) ;;
  emit (Click a) ;;
  modify (fun st => set_body_children (removelast (body_children st)) st).

Definition png_catch (message : jstring) : script unit :=
  emit (ConsoleError message) ;;
  emit (Alert (lit "Could not download chart as PNG.")).

Definition downloadPng_click (h : host) : script unit :=
  chart <- gets chartDiv ;;
  match chart with
  | None => emit (Alert (lit "No chart available to download."))
  | Some gd =>
      if negb (truthy (gd_data gd))
      then emit (Alert (lit "No chart available to download."))
      else try_catch (png_try h gd) png_catch
  end.

(** ** Sample page and hosts *)

(** The page as the script finds it: nothing uploaded, the panels
    hidden, an empty chart element. *)
Definition fresh_page : state :=
  {| DATASET_ID := VNull;
     dropzone_p := lit "Drop a file here";
     metaPanel := Some true;
     metaSummary := [];
     columnsGrid := [];
     qaPanel_hidden := true;
     answerDiv := [];
     previewDiv := [];
     chartDiv := Some {| gd_data := VUndefined; gd_layout := VUndefined |};
     body_children := [];
     log := [] |}.

(** A page after an upload and a question that drew a chart. *)
Definition page_with_chart : state :=
  set_chartDiv (Some {| gd_data := VArr [VObj [(lit "type", VStr (lit "bar"))]];
                        gd_layout := VObj [] |})
    (set_answerDiv (lit "Sales rise.")
       (set_DATASET_ID (VStr (lit "d1")) fresh_page)).

(** A host that settles every fetch with [r] and every export with
    [img], and whose plot stores the traces and the layout. *)
Definition host_answering (r : fetch_result) (img : outcome jstring) : host :=
  {| fetch := fun _ => r;
     Plotly_newPlot := fun _ traces layout =>
                         {| gd_data := traces; gd_layout := layout |};
     Plotly_toImage := fun _ _ => img;
     TypeError_message := fun k =>
       lit "Cannot read properties of undefined (reading '" ++ k ++ lit "')";
     ToPrimitive_message := lit "Cannot convert object to primitive value" |}.

Definition png_url : jstring := lit "data:image/png;base64,iVBORw0KGgo=".

(** The upload payload of the specification's example. *)
Definition example_meta : value :=
  VObj [ (lit "rows", VNum (integer 10)); (lit "cols", VNum (integer 3));
         (lit "columns", VArr [VStr (lit "a"); VStr (lit "b"); VStr (lit "c")]);
         (lit "logical_types", VObj [(lit "a", VStr (lit "numeric"))]) ].

Definition example_upload : value :=
  VObj [ (lit "dataset_id", VStr (lit "d1")); (lit "meta", example_meta) ].


(** ** Vocabulary of the statements *)

(** [m] never changes what [field] reads. *)
Definition preserves {F A : Type} (field : state -> F) (m : script A) : Prop :=
  forall st, field (fst (m st)) = field st.

(** The payload has an own field [k]. *)
Definition has_field (data : value) (k : jstring) : bool :=
  match data with
  | VObj fields => match assoc k fields with Some _ => true | None => false end
  | _ => false
  end.

(** The message of the error that a failed request throws into the
    [try]: the rejection's, the parse error's, or for a non-2xx
    response the text of the payload's [error] when it is truthy and
    the generic text otherwise.  Reading [error] of a [null] body is
    itself a TypeError, and so is the conversion of an [error] that
    has no text.  [None] when the request did not fail. *)
Definition failure_message (h : host) (generic : jstring) (r : fetch_result)
  : option jstring :=
  match r with
  | Rejected message => Some message
  | Response _ (Unparsable message) => Some message
  | Response false (Parsed data) =>
      Some (match get h data (lit "error") with
            | Returns error =>
                match to_text h (if truthy error then error
                                 else VStr generic) with
                | Returns text => text
                | Throws message => message
                end
            | Throws message => message
            end)
  | Response true (Parsed _) => None
  end.

(** The preview text as the specification words it: "Preview rows: N"
    for an [agg_preview] array of length N > 0, empty for an empty
    array, a missing field or a value that is not an array. *)
Definition preview_text (data : value) : jstring :=
  match data with
  | VObj fields =>
      match assoc (lit "agg_preview") fields with
      | Some (VArr rows) =>
          match List.length rows with
          | O => []
          | S _ as n => lit "Preview rows: " ++ decimal_of_nat n
          end
      | _ => []
      end
  | _ => []
  end.

(** The text that line 159 shows: [data.answer] when it is truthy,
    the placeholder otherwise; [None] when the conversion throws. *)
Definition shown_answer (data : value) : option jstring :=
  to_string (if truthy (member data (lit "answer"))
             then member data (lit "answer")
             else VStr (lit "(No insight returned)")).

(** The state in which the chart statement runs: the request logged
    and the answer shown. *)
Definition answered (id : value) (q text : jstring) (st : state) : state :=
  set_answerDiv text (set_log (log st ++ [Fetch (ask_request id q)]) st).

(** The chart the PNG handler finds: the element, when it exists and
    its [data] is set. *)
Definition rendered_chart (st : state) : option graph_div :=
  match chartDiv st with
  | Some gd => if truthy (gd_data gd) then Some gd else None
  | None => None
  end.

(** ** The accepted responses, statement by statement *)

(** Lines 75-80: what [handleUpload] does with the body of a 2xx
    response. *)
Definition upload_accept (h : host) (data : value) : script unit :=
  dataset_id <- lift (get h data (lit "dataset_id")) ;;
  modify (set_DATASET_ID dataset_id) ;;
  meta <- lift (get h data (lit "meta")) ;;
  renderMeta h meta ;;
  modify (set_dropzone_p (lit "Upload complete! Ask a question below.")) ;;
  modify (set_qaPanel_hidden false).

(** Lines 159-171: what [askQuestion] does with the body of a 2xx
    response. *)
Definition ask_accept (h : host) (data : value) : script unit :=
  answer <- lift (get h data (lit "answer")) ;;
  text <- lift (to_text h (if truthy answer then answer
                           else VStr (lit "(No insight returned)"))) ;;
  modify (set_answerDiv text) ;;
  plot_figure h data ;;
  show_preview h data.

(** ** What renderMeta writes *)

(** [meta.logical_types ? meta.logical_types[c] : ""] (line 108);
    [None] when the conversion of [c] to a property key throws. *)
Definition type_of_column (meta c : value) : option value :=
  let logical_types := member meta (lit "logical_types") in
  if truthy logical_types
  then match to_string c with
       | Some key => Some (member logical_types key)
       | None => None
       end
  else Some (VStr []).

(** The card of a column (lines 108-111); [None] when a conversion
    throws. *)
Definition card_of (meta c : value) : option card :=
  match type_of_column meta c with
  | Some type =>
      match card_html c type with
      | Some html => Some {| className := lit "card"; innerHTML := html |}
      | None => None
      end
  | None => None
  end.

(** One card per column, in the order of [meta.columns]; [None] when
    the card of some column cannot be made. *)
Fixpoint cards_of (meta : value) (items : list value) : option (list card) :=
  match items with
  | [] => Some []
  | c :: rest =>
      match card_of meta c, cards_of meta rest with
      | Some card, Some cards => Some (card :: cards)
      | _, _ => None
      end
  end.

(** [quickTrend] of lines 96-99. *)
Definition quick_trend (meta : value) : value :=
  let summary := member meta (lit "summary") in
  let trend := if truthy summary then member summary (lit "quick_trend")
               else summary in
  if truthy trend then trend else VStr em_dash.

(** The summary line (lines 101-104); [None] when the conversion of
    [rows], [cols] or the quick trend throws. *)
Definition summary_of (meta : value) : option jstring :=
  match to_string (member meta (lit "rows")),
        to_string (member meta (lit "cols")),
        to_string (quick_trend meta) with
  | Some rows, Some cols, Some trend => Some (summary_html rows cols trend)
  | _, _, _ => None
  end.

(** What [(meta.columns || []).forEach] iterates: [None] when the
    value has no [forEach] to call. *)
Definition columns_of (meta : value) : option (list value) :=
  let columns := member meta (lit "columns") in
  if truthy columns
  then match columns with VArr items => Some items | _ => None end
  else Some [].

(** The page after a render that ran to its end, with the summary
    line and the cards it wrote. *)
Definition rendered (html : jstring) (cards : list card) (st : state) : state :=
  set_columnsGrid cards
    (set_metaSummary html (set_metaPanel (Some false) st)).

(** The TypeError that stops a render, in the order the statements
    run: [meta] is [null] or [undefined]; a substitution of the summary
    line has no text; [meta.columns] is truthy and not an array; the
    card of some column cannot be made.  [None] when the render runs to
    its end. *)
Definition render_error (h : host) (meta : value) : option jstring :=
  if nullish meta then Some (TypeError_message h (lit "summary"))
  else match summary_of meta with
       | None => Some (ToPrimitive_message h)
       | Some _ =>
           match columns_of meta with
           | None => Some (TypeError_message h (lit "forEach"))
           | Some items =>
               match cards_of meta items with
               | None => Some (ToPrimitive_message h)
               | Some _ => None
               end
           end
       end.

(** The page after lines 161-165 for a body [data]. *)
Definition plotted (h : host) (data : value) (st : state) : state :=
  let figure := member data (lit "figure") in
  match (if truthy figure then chartDiv st else None) with
  | Some gd =>
      let traces := member figure (lit "data") in
      let layout := member figure (lit "layout") in
      set_chartDiv (Some (Plotly_newPlot h gd traces layout))
        (set_log (log st ++ [NewPlot traces layout]) st)
  | None => st
  end.

Definition is_fetch (e : effect) : bool :=
  match e with Fetch _ => true | _ => false end.

(** No request among the effects. *)
Definition no_fetch (l : list effect) : bool :=
  forallb (fun e => negb (is_fetch e)) l.

(** ** The remaining handlers

    The page state together with what the drop zone, the file input and
    the report button read and write. *)
Record browser := {
  page : state;
  fileInput_files : list file;       (* fileInput.files *)
  dropzone_borderColor : jstring;    (* dropzone.style.borderColor, as assigned *)
  location_href : jstring            (* window.location.href, as assigned *)
}.

Definition set_page (st : state) (b : browser) : browser :=
  {| page := st; fileInput_files := fileInput_files b;
     dropzone_borderColor := dropzone_borderColor b;
     location_href := location_href b |}.

Definition set_fileInput_files (l : list file) (b : browser) : browser :=
  {| page := page b; fileInput_files := l;
     dropzone_borderColor := dropzone_borderColor b;
     location_href := location_href b |}.

Definition set_dropzone_borderColor (c : jstring) (b : browser) : browser :=
  {| page := page b; fileInput_files := fileInput_files b;
     dropzone_borderColor := c; location_href := location_href b |}.

Definition set_location_href (u : jstring) (b : browser) : browser :=
  {| page := page b; fileInput_files := fileInput_files b;
     dropzone_borderColor := dropzone_borderColor b; location_href := u |}.

(** [handleUpload()] as the listeners call it: on [fileInput.files[0]]
    (line 56). *)
Definition upload_selected (h : host) (b : browser) : browser :=
  set_page (run (handleUpload h (hd_error (fileInput_files b))) (page b)) b.

(** The [change] listener of the file input (line 48). *)
Definition fileInput_change (h : host) (b : browser) : browser :=
  upload_selected h b.

(** The drag-and-drop listeners (lines 30-46).  The boolean tells
    whether the listener called [e.preventDefault()]; [dropped] is
    [e.dataTransfer.files]. *)
Definition dropzone_dragover (b : browser) : browser * bool :=
  (set_dropzone_borderColor (lit "#60a5fa") b, true).

Definition dropzone_dragleave (b : browser) : browser :=
  set_dropzone_borderColor [] b.

Definition dropzone_drop (h : host) (dropped : list file) (b : browser)
  : browser * bool :=
  let b1 := set_dropzone_borderColor [] b in
  match dropped with
  | [] => (b1, true)
  | _ :: _ => (upload_selected h (set_fileInput_files dropped b1), true)
  end.

(** The [keydown] listener of the question input (lines 122-127);
    [key] is [e.key], [input] is [questionInput.value]. *)
Definition question_keydown (h : host) (key input : jstring) (st : state)
  : state * bool :=
  if jstring_eqb key (lit "Enter")
  then (run (askQuestion h input) st, true)
  else (st, false).

(** The click listener of the report button (lines 183-189).  When
    the conversion of [DATASET_ID] in the template literal throws, the
    listener ends there and nothing is assigned. *)
Definition downloadReport_click (b : browser) : browser :=
  if negb (truthy (DATASET_ID (page b)))
  then set_page (run (emit (Alert (lit "Upload a dataset first."))) (page b)) b
  else match to_string (DATASET_ID (page b)) with
       | Some id => set_location_href (lit "/api/report/" ++ id) b
       | None => b
       end.

(** A browser around the fresh page. *)
Definition fresh_browser : browser :=
  {| page := fresh_page; fileInput_files := [];
     dropzone_borderColor := []; location_href := lit "/" |}.

Definition sales_csv : file :=
  {| file_name := lit "sales.csv"; file_bytes := [49; 44; 50; 10]%N |}.

(** * Properties *)

(** ** Conversions on sample values *)

Example to_string_examples :
  to_string (VNum (integer 10)) = Some (lit "10") /\
  to_string (VNum (integer (-3))) = Some (lit "-3") /\
  to_string (VNum (integer 0)) = Some (lit "0") /\
  truthy (VNum (integer 0)) = false /\
  decimal_of_nat 0 = lit "0" /\
  decimal_of_nat 12 = lit "12" /\
  to_string (VArr [VNum (integer 1); VNull; VStr (lit "x")])
    = Some (lit "1,,x") /\
  to_string (VObj [(lit "a", VNull)]) = Some (lit "[object Object]") /\
  to_string (VObj [(lit "toString", VNum (integer 1))]) = None /\
  to_string (VArr [VObj [(lit "toString", VNull)]]) = None /\
  to_string (member (VObj []) (lit "toString"))
    = Some (lit "function toString() { [native code] }") /\
  trim (lit "  hi there  ") = lit "hi there" /\
  trim [9; 160; 8232; 65279; 32]%N = [].
Proof. repeat split; reflexivity. Qed.

(** Reads of elements, code units and inherited members. *)
Example member_examples :
  member (VArr [VStr (lit "int"); VStr (lit "str")]) (lit "1")
    = VStr (lit "str") /\
  member (VArr [VStr (lit "int"); VStr (lit "str")]) (lit "01") = VUndefined /\
  member (VArr [VStr (lit "int"); VStr (lit "str")]) (lit "2") = VUndefined /\
  member (VArr [VNull]) (lit "length") = VNum (integer 1) /\
  member (VStr (lit "abc")) (lit "2") = VStr (lit "c") /\
  member (VArr []) (lit "map") = VBuiltin (native (lit "map")) /\
  member (VObj []) (lit "constructor") = VBuiltin (native (lit "Object")) /\
  member (VObj [(lit "b", VNull)]) (lit "a") = VUndefined.
Proof. repeat split; reflexivity. Qed.

Lemma truthy_not_nullish (v : value) : truthy v = true -> nullish v = false.
Proof. destruct v; simpl; congruence. Qed.

Lemma get_member (h : host) (v : value) (k : jstring) :
  nullish v = false -> get h v k = Returns (member v k).
Proof. unfold get. intros ->. reflexivity. Qed.

(** ** Frame rules: a field that no statement of a handler writes *)

Section Frame.
Context {F : Type} (field : state -> F).

Lemma preserves_ret {A} (a : A) : preserves field (ret a).
Proof. intro st; reflexivity. Qed.

Lemma preserves_throw {A} (e : jstring) : preserves field (@throw A e).
Proof. intro st; reflexivity. Qed.

Lemma preserves_lift {A} (o : outcome A) : preserves field (lift o).
Proof. intro st; reflexivity. Qed.

Lemma preserves_gets {A} (f : state -> A) : preserves field (gets f).
Proof. intro st; reflexivity. Qed.

Lemma preserves_modify (f : state -> state) :
  (forall st, field (f st) = field st) -> preserves field (modify f).
Proof. intros Hf st; apply Hf. Qed.

Lemma preserves_bind {A B} (m : script A) (k : A -> script B) :
  preserves field m -> (forall a, preserves field (k a)) ->
  preserves field (bind m k).
Proof.
  intros Hm Hk st. unfold bind.
  specialize (Hm st). destruct (m st) as [st' [a|e]]; simpl in *.
  - rewrite Hk. exact Hm.
  - exact Hm.
Qed.

Lemma preserves_try_catch (b : script unit) (handler : jstring -> script unit) :
  preserves field b -> (forall e, preserves field (handler e)) ->
  preserves field (try_catch b handler).
Proof.
  intros Hb Hh st. unfold try_catch.
  specialize (Hb st). destruct (b st) as [st' [[]|e]]; simpl in *.
  - exact Hb.
  - rewrite Hh. exact Hb.
Qed.

Lemma preserves_forEach {A} (l : list A) (f : A -> script unit) :
  (forall x, preserves field (f x)) -> preserves field (forEach l f).
Proof.
  intros Hf. induction l as [|x l IH]; simpl.
  - apply preserves_ret.
  - apply preserves_bind; auto.
Qed.

Lemma preserves_await_json (r : fetch_result) :
  preserves field (await_json r).
Proof.
  destruct r as [m | ok [d | m]]; simpl;
    auto using @preserves_ret, @preserves_throw.
Qed.
End Frame.

(** Splits a handler into its statements; what remains are the writes
    to the page, none of which touches the field. *)
Ltac frame :=
  repeat first
    [ apply preserves_ret | apply preserves_throw | apply preserves_lift
    | apply preserves_gets | apply preserves_await_json
    | apply preserves_bind; [ | intros ? ]
    | apply preserves_try_catch; [ | intros ? ]
    | apply preserves_forEach; intros ?
    | apply preserves_modify; intros ?; reflexivity
    | match goal with
      | |- preserves _ (match ?x with _ => _ end) => destruct x
      end ].

Lemma show_preview_keeps_chart (h : host) (data : value) :
  preserves chartDiv (show_preview h data).
Proof. unfold show_preview. frame. Qed.

Lemma plot_figure_keeps_preview (h : host) (data : value) :
  preserves previewDiv (plot_figure h data).
Proof. unfold plot_figure, emit. frame. Qed.

(** ** askQuestion: the two guards *)

Lemma trim_blank_falsy (input : jstring) :
  trim input = [] -> truthy (VStr (trim input)) = false.
Proof. intros ->; reflexivity. Qed.

Lemma trim_nonblank_truthy (input : jstring) :
  trim input <> [] -> truthy (VStr (trim input)) = true.
Proof. simpl. destruct (trim input); congruence. Qed.

Lemma askQuestion_blank (h : host) (input : jstring) (st : state) :
  trim input = [] -> askQuestion h input st = (st, Returns tt).
Proof.
  intros Hq. unfold askQuestion.
  rewrite (trim_blank_falsy _ Hq). reflexivity.
Qed.

Lemma askQuestion_no_dataset (h : host) (input : jstring) (st : state) :
  trim input <> [] ->
  truthy (DATASET_ID st) = false ->
  askQuestion h input st
  = (set_log (log st ++ [Alert (lit "Upload a dataset first.")]) st, Returns tt).
Proof.
  intros Hq Hid. unfold askQuestion.
  rewrite (trim_nonblank_truthy _ Hq). simpl.
  unfold bind, gets. rewrite Hid. reflexivity.
Qed.

(** C2.  A question that is empty after trimming makes [askQuestion]
    return at once: the whole page state is what it was, so nothing was
    fetched (the log is unchanged) and the answer, the chart and the
    preview keep their content. *)
Theorem askQuestion_blank_is_noop (h : host) (input : jstring) (st : state) :
  trim input = [] ->
  let st' := run (askQuestion h input) st in
  st' = st /\ log st' = log st /\ answerDiv st' = answerDiv st /\
  chartDiv st' = chartDiv st /\ previewDiv st' = previewDiv st.
Proof.
  intros Hq. unfold run. rewrite (askQuestion_blank h input st Hq).
  simpl. repeat split.
Qed.

Lemma askQuestion_blank_is_noop_witness :
  trim (lit "   ") = [] /\
  run (askQuestion (host_answering (Rejected []) (Throws [])) (lit "   "))
      page_with_chart = page_with_chart.
Proof.
  split; [reflexivity|].
  apply (askQuestion_blank_is_noop _ (lit "   ") page_with_chart).
  reflexivity.
Defined.

(** C3.  A non-blank question asked while no dataset id is set
    ([DATASET_ID] is [null], or any other falsy value) raises the alert
    "Upload a dataset first." and does nothing else: the log gains the
    alert alone, so no request goes to the ask endpoint. *)
Theorem askQuestion_without_dataset_alerts
    (h : host) (input : jstring) (st : state) :
  trim input <> [] ->
  truthy (DATASET_ID st) = false ->
  run (askQuestion h input) st
  = set_log (log st ++ [Alert (lit "Upload a dataset first.")]) st.
Proof.
  intros Hq Hid. unfold run.
  rewrite (askQuestion_no_dataset h input st Hq Hid). reflexivity.
Qed.

Lemma askQuestion_without_dataset_alerts_witness :
  log (run (askQuestion (host_answering (Rejected []) (Throws []))
              (lit " how many rows? ")) fresh_page)
  = [Alert (lit "Upload a dataset first.")].
Proof.
  rewrite (askQuestion_without_dataset_alerts _ (lit " how many rows? ") fresh_page).
  - reflexivity.
  - vm_compute; discriminate.
  - reflexivity.
Defined.

(** C10.  The blank test comes first.  While no dataset id is set, a
    blank question returns silently, leaving the state and its log as
    they were, and the call adds the alert to the log exactly when the
    question is not blank. *)
Theorem blank_check_precedes_dataset_check
    (h : host) (input : jstring) (st : state) :
  truthy (DATASET_ID st) = false ->
  (trim input = [] -> run (askQuestion h input) st = st) /\
  (log (run (askQuestion h input) st)
   = log st ++ [Alert (lit "Upload a dataset first.")]
   <-> trim input <> []).
Proof.
  intros Hid. split; [|split].
  - intros Hq. unfold run. rewrite (askQuestion_blank h input st Hq).
    reflexivity.
  - intros Hlog Hq. unfold run in Hlog.
    rewrite (askQuestion_blank h input st Hq) in Hlog. simpl in Hlog.
    apply (f_equal (@List.length effect)) in Hlog.
    rewrite length_app in Hlog. simpl in Hlog. lia.
  - intros Hq. unfold run.
    rewrite (askQuestion_no_dataset h input st Hq Hid). reflexivity.
Qed.

Lemma blank_check_precedes_dataset_check_witness :
  truthy (DATASET_ID fresh_page) = false /\
  run (askQuestion (host_answering (Rejected []) (Throws [])) [32; 9; 10]%N)
      fresh_page = fresh_page.
Proof.
  split; [reflexivity|].
  apply (blank_check_precedes_dataset_check _ [32; 9; 10]%N fresh_page);
    reflexivity.
Defined.

(** C7.  [askQuestion] never assigns [DATASET_ID]: whatever the
    question, the state and the host's answers, and whether the call
    returns early, succeeds or ends in the [catch], the dataset handle
    after the call is the one before it. *)
Theorem askQuestion_keeps_DATASET_ID (h : host) (input : jstring) (st : state) :
  DATASET_ID (run (askQuestion h input) st) = DATASET_ID st.
Proof.
  revert st. change (preserves DATASET_ID (askQuestion h input)).
  unfold askQuestion, ask_try, ask_catch, plot_figure, show_preview, emit.
  frame.
Qed.

(** ** askQuestion: the exchange with the backend *)

Lemma askQuestion_sends (h : host) (input : jstring) (st : state) :
  trim input <> [] ->
  truthy (DATASET_ID st) = true ->
  askQuestion h input st
  = try_catch (ask_try h (DATASET_ID st) (trim input)) ask_catch
      (set_previewDiv [] (set_answerDiv (lit "Thinking...") st)).
Proof.
  intros Hq Hid. unfold askQuestion.
  rewrite (trim_nonblank_truthy _ Hq).
  unfold bind, gets, modify. simpl. rewrite Hid. reflexivity.
Qed.

(** A failed request leaves the [try] at its [throw]: only the request
    has been logged. *)
Lemma ask_try_fails (h : host) (id : value) (q message : jstring) (st : state) :
  failure_message h (lit "Ask failed") (fetch h (ask_request id q))
  = Some message ->
  ask_try h id q st
  = (set_log (log st ++ [Fetch (ask_request id q)]) st, Throws message).
Proof.
  intros Hfail. unfold ask_try, bind, emit, modify. simpl.
  destruct (fetch h (ask_request id q)) as [m | [|] [data | m]];
    simpl in Hfail; try discriminate; injection Hfail as <-;
    try reflexivity.
  simpl. unfold lift.
  destruct (get h data (lit "error")) as [e | m]; simpl; [|reflexivity].
  destruct (to_text h (if truthy e then e else VStr (lit "Ask failed")));
    reflexivity.
Qed.

(** C5.  When the ask request fails (the fetch rejects, the body does
    not parse, or the response is not 2xx), the answer area shows
    "Error: " followed by the error's message, the chart element is
    what it was, and the call made no plot: after the request it only
    logged the error. *)
Theorem askQuestion_failure_shows_error
    (h : host) (input : jstring) (st : state) (message : jstring) :
  trim input <> [] ->
  truthy (DATASET_ID st) = true ->
  failure_message h (lit "Ask failed")
    (fetch h (ask_request (DATASET_ID st) (trim input))) = Some message ->
  let st' := run (askQuestion h input) st in
  answerDiv st' = lit "Error: " ++ message /\
  chartDiv st' = chartDiv st /\
  log st' = log st ++ [Fetch (ask_request (DATASET_ID st) (trim input));
                       ConsoleError message].
Proof.
  intros Hq Hid Hfail. unfold run.
  rewrite (askQuestion_sends h input st Hq Hid).
  unfold try_catch.
  rewrite (ask_try_fails h _ _ message _ Hfail).
  simpl. rewrite <- app_assoc. auto.
Qed.

Lemma askQuestion_failure_shows_error_witness :
  let h := host_answering
             (Response false
                (Parsed (VObj [(lit "error", VStr (lit "Unknown column"))])))
             (Throws []) in
  let st' := run (askQuestion h (lit "total by region?")) page_with_chart in
  answerDiv st' = lit "Error: Unknown column" /\
  chartDiv st' = chartDiv page_with_chart.
Proof.
  intros h st'.
  destruct (askQuestion_failure_shows_error h (lit "total by region?")
              page_with_chart (lit "Unknown column")) as (Ha & Hc & _).
  - vm_compute; discriminate.
  - reflexivity.
  - reflexivity.
  - split; [exact Ha | exact Hc].
Defined.

(** *** A 2xx response with a parsed body *)

Lemma ask_try_ok (h : host) (id : value) (q : jstring) (data : value) (st : state) :
  fetch h (ask_request id q) = Response true (Parsed data) ->
  ask_try h id q st
  = (answer <- lift (get h data (lit "answer")) ;;
     text <- lift (to_text h (if truthy answer then answer
                              else VStr (lit "(No insight returned)"))) ;;
     modify (set_answerDiv text) ;;
     plot_figure h data ;;
     show_preview h data)
      (set_log (log st ++ [Fetch (ask_request id q)]) st).
Proof.
  intros E. unfold ask_try, bind, emit, modify. rewrite E. reflexivity.
Qed.

(** The body [null] makes the read of [answer] throw. *)
Lemma ask_try_ok_null (h : host) (id : value) (q : jstring) (data : value)
    (st : state) :
  fetch h (ask_request id q) = Response true (Parsed data) ->
  nullish data = true ->
  ask_try h id q st
  = (set_log (log st ++ [Fetch (ask_request id q)]) st,
     Throws (TypeError_message h (lit "answer"))).
Proof.
  intros E Hn. rewrite (ask_try_ok h id q data st E).
  unfold bind, lift, get. rewrite Hn. reflexivity.
Qed.

(** An answer without a text makes line 159 throw. *)
Lemma ask_try_ok_unshown (h : host) (id : value) (q : jstring) (data : value)
    (st : state) :
  fetch h (ask_request id q) = Response true (Parsed data) ->
  nullish data = false ->
  shown_answer data = None ->
  ask_try h id q st
  = (set_log (log st ++ [Fetch (ask_request id q)]) st,
     Throws (ToPrimitive_message h)).
Proof.
  intros E Hn Hs. rewrite (ask_try_ok h id q data st E).
  unfold bind at 1, lift. rewrite (get_member h data _ Hn).
  unfold bind at 1, to_text. unfold shown_answer in Hs. rewrite Hs.
  reflexivity.
Qed.

Lemma plot_figure_returns (h : host) (data : value) (st : state) :
  nullish data = false ->
  exists st', plot_figure h data st = (st', Returns tt).
Proof.
  intros Hn. unfold plot_figure, bind, lift, gets.
  rewrite (get_member h data _ Hn).
  destruct (truthy (member data (lit "figure"))) eqn:Hfig.
  - destruct (chartDiv st) as [gd|]; [|eexists; reflexivity].
    rewrite !(get_member h _ _ (truthy_not_nullish _ Hfig)).
    eexists; reflexivity.
  - eexists; reflexivity.
Qed.

Lemma member_figure_absent (data : value) :
  has_field data (lit "figure") = false ->
  member data (lit "figure") = VUndefined.
Proof.
  destruct data; try reflexivity.
  unfold has_field, member. destruct (assoc _ fields); [discriminate|reflexivity].
Qed.

(** Without a [figure] the chart statement does nothing. *)
Lemma plot_figure_absent (h : host) (data : value) (st : state) :
  nullish data = false ->
  has_field data (lit "figure") = false ->
  plot_figure h data st = (st, Returns tt).
Proof.
  intros Hn Hf. unfold plot_figure, bind, lift, gets.
  rewrite (get_member h data _ Hn), (member_figure_absent data Hf).
  reflexivity.
Qed.

Lemma member_agg_preview (data : value) :
  match member data (lit "agg_preview") with
  | VArr rows =>
      if (0 <? List.length rows)%nat
      then lit "Preview rows: " ++ decimal_of_nat (List.length rows)
      else []
  | _ => []
  end = preview_text data.
Proof.
  destruct data; try reflexivity.
  unfold member, preview_text.
  destruct (assoc _ fields) as [[| | | | | rows | |]|]; try reflexivity.
  destruct rows; reflexivity.
Qed.

Lemma show_preview_sets (h : host) (data : value) (st : state) :
  nullish data = false ->
  show_preview h data st = (set_previewDiv (preview_text data) st, Returns tt).
Proof.
  intros Hn. unfold show_preview, bind, lift.
  rewrite (get_member h data _ Hn), <- member_agg_preview.
  destruct (member data (lit "agg_preview")); try reflexivity.
  destruct (0 <? List.length items)%nat; reflexivity.
Qed.

Lemma ask_try_ok_returns (h : host) (id : value) (q : jstring) (data : value)
    (text : jstring) (st : state) :
  fetch h (ask_request id q) = Response true (Parsed data) ->
  nullish data = false ->
  shown_answer data = Some text ->
  exists st2,
    plot_figure h data (answered id q text st) = (st2, Returns tt) /\
    ask_try h id q st = (set_previewDiv (preview_text data) st2, Returns tt).
Proof.
  intros Hok Hn Hs.
  destruct (plot_figure_returns h data (answered id q text st) Hn) as [st2 E].
  exists st2. split; [exact E|].
  rewrite (ask_try_ok h id q data st Hok).
  unfold bind at 1, lift. rewrite (get_member h data _ Hn).
  unfold bind at 1, to_text. unfold shown_answer in Hs. rewrite Hs.
  unfold bind at 1, modify at 1. unfold bind at 1.
  fold (answered id q text st). rewrite E.
  apply (show_preview_sets h data st2 Hn).
Qed.

(** C4, as the code has it.  After a 2xx response whose body parsed to
    [data] and whose answer can be shown (the value that line 159
    assigns has a text, as every string, number, boolean and plain
    object has), the preview area holds exactly "Preview rows: N" when
    [data.agg_preview] is an array of length N > 0, and the empty
    string when it is an empty array, absent or not an array. *)
Theorem askQuestion_success_preview
    (h : host) (input : jstring) (st : state) (data : value) :
  trim input <> [] ->
  truthy (DATASET_ID st) = true ->
  fetch h (ask_request (DATASET_ID st) (trim input))
  = Response true (Parsed data) ->
  shown_answer data <> None ->
  previewDiv (run (askQuestion h input) st) = preview_text data.
Proof.
  intros Hq Hid Hok Hs. unfold run.
  rewrite (askQuestion_sends h input st Hq Hid). unfold try_catch.
  destruct (nullish data) eqn:Hn.
  - rewrite (ask_try_ok_null h _ _ data _ Hok Hn).
    destruct data; try discriminate; reflexivity.
  - destruct (shown_answer data) as [text|] eqn:Ht; [|congruence].
    destruct (ask_try_ok_returns h _ _ data text
                (set_previewDiv [] (set_answerDiv (lit "Thinking...") st))
                Hok Hn Ht) as (st2 & _ & E).
    rewrite E. reflexivity.
Qed.

Lemma askQuestion_success_preview_witness :
  let data := VObj [(lit "answer", VStr (lit "Three regions."));
                    (lit "agg_preview", VArr [VObj []; VObj []; VObj []])] in
  previewDiv (run (askQuestion (host_answering (Response true (Parsed data))
                                  (Throws []))
                     (lit "how many regions?")) page_with_chart)
  = lit "Preview rows: 3".
Proof.
  intros data.
  rewrite (askQuestion_success_preview _ (lit "how many regions?")
             page_with_chart data).
  - reflexivity.
  - vm_compute; discriminate.
  - reflexivity.
  - reflexivity.
  - vm_compute; discriminate.
Defined.

(** C4 as the claim words it fails.  The response is 2xx and its
    [agg_preview] is an array of length 2, but its [answer] is an
    object with an own field [toString]: the assignment of line 159
    throws inside the [try], lines 167-171 are never reached, and the
    preview keeps the empty text of line 140 instead of "Preview rows:
    2". *)
Lemma askQuestion_success_preview_counterexample :
  let data := VObj [(lit "answer", VObj [(lit "toString", VNum (integer 1))]);
                    (lit "agg_preview", VArr [VObj []; VObj []])] in
  let h := host_answering (Response true (Parsed data)) (Throws []) in
  trim (lit "rows?") <> [] /\
  truthy (DATASET_ID page_with_chart) = true /\
  fetch h (ask_request (DATASET_ID page_with_chart) (trim (lit "rows?")))
  = Response true (Parsed data) /\
  preview_text data = lit "Preview rows: 2" /\
  previewDiv (run (askQuestion h (lit "rows?")) page_with_chart) = [] /\
  previewDiv (run (askQuestion h (lit "rows?")) page_with_chart)
  <> preview_text data.
Proof.
  intros data h. repeat split; try reflexivity; vm_compute; discriminate.
Qed.

(** [preview_text] on the shapes the claim names. *)
Example preview_text_cases :
  preview_text (VObj [(lit "agg_preview", VArr [])]) = [] /\
  preview_text (VObj [(lit "answer", VStr (lit "x"))]) = [] /\
  preview_text (VObj [(lit "agg_preview", VStr (lit "rows"))]) = [] /\
  preview_text (VObj [(lit "agg_preview", VArr [VNull; VNull])])
  = lit "Preview rows: 2".
Proof. repeat split; reflexivity. Qed.

(** C9.  After a 2xx response whose payload has no [figure] field the
    chart element is exactly what it was before the question: an
    earlier chart stays, and the call made no plot (after the request
    the log holds no [NewPlot]). *)
Theorem askQuestion_without_figure_keeps_chart
    (h : host) (input : jstring) (st : state) (data : value) :
  trim input <> [] ->
  truthy (DATASET_ID st) = true ->
  fetch h (ask_request (DATASET_ID st) (trim input))
  = Response true (Parsed data) ->
  has_field data (lit "figure") = false ->
  let st' := run (askQuestion h input) st in
  chartDiv st' = chartDiv st /\
  exists rest,
    log st' = log st ++ Fetch (ask_request (DATASET_ID st) (trim input)) :: rest /\
    forall traces layout, ~ In (NewPlot traces layout) rest.
Proof.
  intros Hq Hid Hok Hfig. unfold run.
  rewrite (askQuestion_sends h input st Hq Hid). unfold try_catch.
  destruct (nullish data) eqn:Hn.
  - rewrite (ask_try_ok_null h _ _ data _ Hok Hn). simpl.
    split; [reflexivity|].
    exists [ConsoleError (TypeError_message h (lit "answer"))].
    rewrite <- app_assoc. split; [reflexivity|].
    intros t l [H|[]]; discriminate.
  - destruct (shown_answer data) as [text|] eqn:Ht.
    + destruct (ask_try_ok_returns h _ _ data text
                  (set_previewDiv [] (set_answerDiv (lit "Thinking...") st))
                  Hok Hn Ht) as (st2 & Hplot & E).
      rewrite E. rewrite (plot_figure_absent h data _ Hn Hfig) in Hplot.
      injection Hplot as <-. simpl.
      split; [reflexivity|].
      exists []. split; [reflexivity|]. intros t l [].
    + rewrite (ask_try_ok_unshown h _ _ data _ Hok Hn Ht). simpl.
      split; [reflexivity|].
      exists [ConsoleError (ToPrimitive_message h)].
      rewrite <- app_assoc. split; [reflexivity|].
      intros t l [H|[]]; discriminate.
Qed.

Lemma askQuestion_without_figure_keeps_chart_witness :
  let data := VObj [(lit "answer", VStr (lit "Three regions."))] in
  chartDiv (run (askQuestion (host_answering (Response true (Parsed data))
                                (Throws []))
                   (lit "how many regions?")) page_with_chart)
  = chartDiv page_with_chart.
Proof.
  intros data.
  apply (askQuestion_without_figure_keeps_chart _ (lit "how many regions?")
           page_with_chart data).
  - vm_compute; discriminate.
  - reflexivity.
  - reflexivity.
  - reflexivity.
Defined.

(** ** handleUpload *)

Lemma upload_try_fails (h : host) (f : file) (message : jstring) (st : state) :
  failure_message h (lit "Upload failed") (fetch h (upload_request f))
  = Some message ->
  upload_try h f st
  = (set_log (log st ++ [Fetch (upload_request f)]) st, Throws message).
Proof.
  intros Hfail. unfold upload_try, bind, emit, modify. simpl.
  destruct (fetch h (upload_request f)) as [m | [|] [data | m]];
    simpl in Hfail; try discriminate; injection Hfail as <-;
    try reflexivity.
  simpl. unfold lift.
  destruct (get h data (lit "error")) as [e | m]; simpl; [|reflexivity].
  destruct (to_text h (if truthy e then e else VStr (lit "Upload failed")));
    reflexivity.
Qed.

(** C6.  When the upload fails (the fetch rejects, the body does not
    parse, or the response is not 2xx), the dropzone shows "Error: "
    followed by the message of the failure (the text of the backend's
    [error] when the payload carries one, "Upload failed" when it does
    not, the browser's own message for a rejection, a parse error or an
    [error] that has no text), and [DATASET_ID] keeps its prior value,
    [null] or an earlier id. *)
Theorem handleUpload_failure_keeps_dataset
    (h : host) (f : file) (st : state) (message : jstring) :
  failure_message h (lit "Upload failed") (fetch h (upload_request f))
  = Some message ->
  let st' := run (handleUpload h (Some f)) st in
  dropzone_p st' = lit "Error: " ++ message /\
  DATASET_ID st' = DATASET_ID st.
Proof.
  intros Hfail.
  assert (E : handleUpload h (Some f) st
              = upload_catch message
                  (set_log (log st ++ [Fetch (upload_request f)])
                     (set_dropzone_p (lit "Uploading...") st))).
  { unfold handleUpload, bind at 1, modify at 1, try_catch.
    rewrite (upload_try_fails h f message _ Hfail). reflexivity. }
  unfold run. rewrite E. split; reflexivity.
Qed.

Lemma handleUpload_failure_keeps_dataset_witness :
  let f := {| file_name := lit "sales.csv"; file_bytes := [] |} in
  let bad := Response false
               (Parsed (VObj [(lit "error", VStr (lit "Unsupported file type"))])) in
  let st' := run (handleUpload (host_answering bad (Throws [])) (Some f))
               page_with_chart in
  dropzone_p st' = lit "Error: Unsupported file type" /\
  DATASET_ID st' = VStr (lit "d1").
Proof.
  intros f bad st'.
  apply (handleUpload_failure_keeps_dataset (host_answering bad (Throws [])) f
           page_with_chart (lit "Unsupported file type")).
  reflexivity.
Defined.

(** The three kinds of message a failed upload surfaces. *)
Example failure_message_cases (h : host) :
  failure_message h (lit "Upload failed")
    (Response false (Parsed (VObj [(lit "error", VStr (lit "Too large"))])))
  = Some (lit "Too large") /\
  failure_message h (lit "Upload failed") (Response false (Parsed (VObj [])))
  = Some (lit "Upload failed") /\
  failure_message h (lit "Upload failed") (Rejected (lit "Failed to fetch"))
  = Some (lit "Failed to fetch") /\
  failure_message h (lit "Upload failed")
    (Response false
       (Parsed (VObj [(lit "error", VObj [(lit "toString", VNum (integer 1))])])))
  = Some (ToPrimitive_message h) /\
  failure_message h (lit "Upload failed")
    (Response false
       (Parsed (VObj [(lit "error",
                       VNum {| number_text := lit "1e+21";
                               number_truthy := true |})])))
  = Some (lit "1e+21").
Proof. repeat split; reflexivity. Qed.

(** The example of the specification, through [handleUpload]. *)
Example handleUpload_example :
  let f := {| file_name := lit "sales.csv"; file_bytes := [] |} in
  let st' := run (handleUpload
                    (host_answering (Response true (Parsed example_upload))
                       (Throws [])) (Some f)) fresh_page in
  DATASET_ID st' = VStr (lit "d1") /\
  qaPanel_hidden st' = false /\
  metaPanel st' = Some false /\
  dropzone_p st' = lit "Upload complete! Ask a question below." /\
  metaSummary st'
  = newline ++ indent 8 ++ lit "<b>Rows:</b> 10 " ++ bullet
      ++ lit " <b>Columns:</b> 3<br/>" ++ newline ++ indent 8
      ++ lit "<b>Quick trend:</b> " ++ em_dash ++ newline ++ indent 4 /\
  List.length (columnsGrid st') = 3%nat.
Proof. repeat split; reflexivity. Qed.

(** ** renderMeta: the type label of a column *)

(** With no [logical_types] at all the label is empty. *)
Lemma column_card_without_types (h : host) (meta c : value) (name : jstring)
    (st : state) :
  nullish meta = false ->
  truthy (member meta (lit "logical_types")) = false ->
  to_string c = Some name ->
  columnsGrid (run (column_card h meta c) st)
  = columnsGrid st ++ [{| className := lit "card";
                          innerHTML := lit "<b>" ++ name
                                         ++ lit "</b><br/><small></small>" |}].
Proof.
  intros Hn Hlt Hc. unfold run, column_card, bind, lift, to_text.
  rewrite (get_member h meta _ Hn), Hlt, Hc. reflexivity.
Qed.

(** With a [logical_types] object that has no entry for the column the
    read yields [undefined], and the label is its text. *)
Lemma column_card_missing_entry
    (h : host) (meta c : value) (types : list (jstring * value))
    (name : jstring) (st : state) :
  nullish meta = false ->
  member meta (lit "logical_types") = VObj types ->
  to_string c = Some name ->
  assoc name types = None ->
  inherited name = VUndefined ->
  columnsGrid (run (column_card h meta c) st)
  = columnsGrid st
      ++ [{| className := lit "card";
             innerHTML := lit "<b>" ++ name
                            ++ lit "</b><br/><small>undefined</small>" |}].
Proof.
  intros Hn Hlt Hc Ha Hi. unfold run, column_card, bind, lift, to_text.
  rewrite (get_member h meta _ Hn), Hlt. simpl truthy. cbv iota.
  rewrite Hc. unfold get. simpl nullish. cbv iota. unfold member.
  rewrite Ha, Hi. reflexivity.
Qed.

(** C1 (the code departs from the claim).  On the payload of the
    specification's example, whose [logical_types] names only column
    "a", [renderMeta] labels the cards of "b" and "c" with the text
    "undefined", not with the empty string. *)
Theorem renderMeta_missing_type_labels_undefined
    (h : host) (st : state) (hidden : bool) :
  columnsGrid (run (renderMeta h example_meta) (set_metaPanel (Some hidden) st))
  = [ {| className := lit "card";
         innerHTML := lit "<b>a</b><br/><small>numeric</small>" |};
      {| className := lit "card";
         innerHTML := lit "<b>b</b><br/><small>undefined</small>" |};
      {| className := lit "card";
         innerHTML := lit "<b>c</b><br/><small>undefined</small>" |} ]
  /\ card_html (VStr (lit "b")) (member (member example_meta (lit "logical_types"))
                                   (lit "b"))
     <> card_html (VStr (lit "b")) (VStr []).
Proof.
  split.
  - reflexivity.
  - vm_compute. discriminate.
Qed.

(** ** Download chart as PNG *)

Lemma removelast_snoc {A} (l : list A) (a : A) : removelast (l ++ [a]) = l.
Proof.
  induction l as [|x l IH]; simpl; [reflexivity|].
  rewrite IH. destruct (l ++ [a]) eqn:E; [|reflexivity].
  destruct l; discriminate.
Qed.

(** C8.  The PNG handler.  With no rendered chart (no chart element, or
    [chartDiv.data] unset) it raises the alert "No chart available to
    download." and does nothing else: no export, no save.  Otherwise it
    asks Plotly for a PNG of the current chart at width 1000 and height
    600; when the export resolves it clicks a temporary anchor that
    saves the image as "chart.png" and removes the anchor again; when
    the export rejects it logs the error and raises the alert "Could
    not download chart as PNG.".  In each case the page state is
    otherwise what it was. *)
Theorem downloadPng_click_behaviour (h : host) (st : state) :
  let png := {| format := lit "png"; height := 600; width := 1000 |} in
  run (downloadPng_click h) st
  = match rendered_chart st with
    | None =>
        set_log (log st ++ [Alert (lit "No chart available to download.")]) st
    | Some gd =>
        match Plotly_toImage h gd png with
        | Returns dataUrl =>
            set_log (log st ++ [ToImage png;
                                Click {| href := dataUrl;
                                         download := lit "chart.png" |}]) st
        | Throws message =>
            set_log (log st ++ [ToImage png; ConsoleError message;
                                Alert (lit "Could not download chart as PNG.")])
              st
        end
    end.
Proof.
  intros png. unfold run, downloadPng_click, rendered_chart, bind, gets.
  destruct (chartDiv st) as [gd|] eqn:Hc; [|reflexivity].
  destruct (truthy (gd_data gd)); [|reflexivity].
  simpl negb. cbv iota.
  unfold try_catch, png_try, png_catch, bind, emit, modify, lift.
  fold png. change png_options with png.
  destruct (Plotly_toImage h gd png) as [dataUrl|message].
  - destruct st. simpl. unfold set_log, set_body_children. simpl.
    rewrite removelast_snoc, <- app_assoc. reflexivity.
  - destruct st. simpl. unfold set_log. simpl.
    rewrite <- !app_assoc. reflexivity.
Qed.

(** The handler on the sample pages. *)
Example downloadPng_click_examples :
  log (run (downloadPng_click (host_answering (Rejected []) (Returns png_url)))
         fresh_page)
  = [Alert (lit "No chart available to download.")] /\
  run (downloadPng_click (host_answering (Rejected []) (Returns png_url)))
    page_with_chart
  = set_log [ToImage png_options;
             Click {| href := png_url; download := lit "chart.png" |}]
      page_with_chart /\
  log (run (downloadPng_click
              (host_answering (Rejected []) (Throws (lit "export failed"))))
         page_with_chart)
  = [ToImage png_options; ConsoleError (lit "export failed");
     Alert (lit "Could not download chart as PNG.")].
Proof. repeat split; reflexivity. Qed.

(** * Further properties of the handlers *)

(** ** What [trim] removes *)

Lemma trimStart_split (s : jstring) :
  exists p, s = p ++ trimStart s /\ forallb is_white_space p = true.
Proof.
  induction s as [|c s (p & E & Hp)]; simpl.
  - exists []. split; reflexivity.
  - destruct (is_white_space c) eqn:Hc.
    + exists (c :: p). simpl. rewrite Hc, Hp. split; [congruence|reflexivity].
    + exists []. split; reflexivity.
Qed.

Lemma trimStart_head (s : jstring) (c : code_unit) (r : jstring) :
  trimStart s = c :: r -> is_white_space c = false.
Proof.
  induction s as [|x s IH]; simpl; [discriminate|].
  destruct (is_white_space x) eqn:Hx; [exact IH|].
  intros E; injection E as -> _. exact Hx.
Qed.

Lemma trimStart_nil_iff (s : jstring) :
  trimStart s = [] <-> forallb is_white_space s = true.
Proof.
  induction s as [|c s IH]; simpl; [tauto|].
  destruct (is_white_space c); simpl; [exact IH|].
  split; discriminate.
Qed.

Lemma forallb_rev {A} (f : A -> bool) (l : list A) :
  forallb f (rev l) = forallb f l.
Proof.
  induction l as [|x l IH]; simpl; [reflexivity|].
  rewrite forallb_app, IH. simpl. rewrite andb_true_r. apply andb_comm.
Qed.

(** The trimmed text sits inside the input between two runs of white
    space. *)
Lemma trim_split (s : jstring) :
  exists p q, s = p ++ trim s ++ q /\
              forallb is_white_space p = true /\
              forallb is_white_space q = true.
Proof.
  unfold trim, trimEnd.
  destruct (trimStart_split s) as (p & Es & Hp).
  destruct (trimStart_split (rev (trimStart s))) as (q & Eq & Hq).
  exists p, (rev q). repeat split.
  - rewrite Es at 1. f_equal.
    rewrite <- (rev_involutive (trimStart s)) at 1.
    rewrite Eq at 1. apply rev_app_distr.
  - exact Hp.
  - rewrite forallb_rev. exact Hq.
Qed.

Lemma trim_nil_iff (s : jstring) :
  trim s = [] <-> forallb is_white_space s = true.
Proof.
  split.
  - intros E. destruct (trim_split s) as (p & q & Es & Hp & Hq).
    rewrite E in Es. simpl in Es. rewrite Es, forallb_app, Hp, Hq. reflexivity.
  - intros H. unfold trim, trimEnd.
    apply trimStart_nil_iff in H. rewrite H. reflexivity.
Qed.

Lemma trim_ends (s : jstring) (c : code_unit) (r : jstring) :
  trim s = c :: r ->
  is_white_space c = false /\ is_white_space (last (c :: r) c) = false.
Proof.
  unfold trim, trimEnd. intros E.
  destruct (trimStart (rev (trimStart s))) as [|x t] eqn:Et; [discriminate|].
  pose proof (trimStart_head _ _ _ Et) as Hx.
  split.
  - (* the first unit of the result is the first unit of [trimStart s] *)
    destruct (trimStart_split (rev (trimStart s))) as (p & Ep & _).
    rewrite Et in Ep.
    assert (Es : trimStart s = rev (x :: t) ++ rev p).
    { rewrite <- (rev_involutive (trimStart s)), Ep. apply rev_app_distr. }
    rewrite E in Es. simpl in Es.
    apply (trimStart_head s c (r ++ rev p)). exact Es.
  - rewrite <- E. simpl rev. rewrite last_last. exact Hx.
Qed.

(** ** askQuestion: the accepted response *)

Lemma failure_message_none (h : host) (generic : jstring) (r : fetch_result) :
  failure_message h generic r = None ->
  exists data, r = Response true (Parsed data).
Proof.
  destruct r as [m | [|] [data | m]]; simpl; try discriminate.
  intros _. exists data. reflexivity.
Qed.

Lemma ask_try_accepts (h : host) (id : value) (q : jstring) (data : value)
    (st : state) :
  fetch h (ask_request id q) = Response true (Parsed data) ->
  ask_try h id q st
  = ask_accept h data (set_log (log st ++ [Fetch (ask_request id q)]) st).
Proof. intros E. rewrite (ask_try_ok h id q data st E). reflexivity. Qed.

Lemma plot_figure_plotted (h : host) (data : value) (st : state) :
  nullish data = false ->
  plot_figure h data st = (plotted h data st, Returns tt).
Proof.
  intros Hn. unfold plot_figure, plotted, bind, lift, gets.
  rewrite (get_member h data _ Hn).
  destruct (truthy (member data (lit "figure"))) eqn:Hfig; [|reflexivity].
  destruct (chartDiv st) as [gd|]; [|reflexivity].
  rewrite !(get_member h _ _ (truthy_not_nullish _ Hfig)). reflexivity.
Qed.

Lemma ask_accept_state (h : host) (data : value) (text : jstring) (st : state) :
  nullish data = false ->
  shown_answer data = Some text ->
  ask_accept h data st
  = (set_previewDiv (preview_text data)
       (plotted h data (set_answerDiv text st)),
     Returns tt).
Proof.
  intros Hn Hs. unfold ask_accept.
  unfold bind at 1, lift. rewrite (get_member h data _ Hn).
  unfold bind at 1, to_text. unfold shown_answer in Hs. rewrite Hs.
  unfold bind at 1, modify at 1. unfold bind at 1.
  rewrite (plot_figure_plotted h data _ Hn).
  apply (show_preview_sets h data _ Hn).
Qed.

(** The whole page after a question whose response was 2xx with a body
    other than [null] and an answer that has a text. *)
Lemma askQuestion_accepted (h : host) (input : jstring) (st : state)
    (data : value) (text : jstring) :
  trim input <> [] ->
  truthy (DATASET_ID st) = true ->
  fetch h (ask_request (DATASET_ID st) (trim input))
  = Response true (Parsed data) ->
  nullish data = false ->
  shown_answer data = Some text ->
  run (askQuestion h input) st
  = set_previewDiv (preview_text data)
      (plotted h data
         (answered (DATASET_ID st) (trim input) text
            (set_previewDiv [] (set_answerDiv (lit "Thinking...") st)))).
Proof.
  intros Hq Hid Hok Hn Hs. unfold run.
  rewrite (askQuestion_sends h input st Hq Hid). unfold try_catch.
  rewrite (ask_try_accepts h _ _ data _ Hok), (ask_accept_state h data text _ Hn Hs).
  reflexivity.
Qed.

(** The whole page after a question whose response was 2xx with an
    answer that has no text. *)
Lemma askQuestion_unshown (h : host) (input : jstring) (st : state)
    (data : value) :
  trim input <> [] ->
  truthy (DATASET_ID st) = true ->
  fetch h (ask_request (DATASET_ID st) (trim input))
  = Response true (Parsed data) ->
  nullish data = false ->
  shown_answer data = None ->
  run (askQuestion h input) st
  = set_answerDiv (lit "Error: " ++ ToPrimitive_message h)
      (set_previewDiv []
         (set_log (log st ++ [Fetch (ask_request (DATASET_ID st) (trim input));
                              ConsoleError (ToPrimitive_message h)])
            st)).
Proof.
  intros Hq Hid Hok Hn Hs. unfold run.
  rewrite (askQuestion_sends h input st Hq Hid). unfold try_catch.
  rewrite (ask_try_ok_unshown h _ _ data _ Hok Hn Hs).
  destruct st. unfold ask_catch, bind, emit, modify. simpl.
  unfold set_answerDiv, set_previewDiv, set_log. simpl.
  rewrite <- app_assoc. reflexivity.
Qed.

Lemma plotted_keeps_answer (h : host) (data : value) (st : state) :
  answerDiv (plotted h data st) = answerDiv st.
Proof.
  unfold plotted.
  destruct (if truthy (member data (lit "figure")) then chartDiv st else None);
    reflexivity.
Qed.

(** X1.  After a 2xx response whose body is not [null], when the value
    that line 159 assigns has a text, the answer area shows it: the
    text of [data.answer] when that value is truthy (the exponent form
    of a large number, "[object Object]" for a plain object), and the
    placeholder "(No insight returned)" when it is missing, empty,
    [null], [false] or 0. *)
Theorem askQuestion_success_answer
    (h : host) (input : jstring) (st : state) (data : value) (text : jstring) :
  trim input <> [] ->
  truthy (DATASET_ID st) = true ->
  fetch h (ask_request (DATASET_ID st) (trim input))
  = Response true (Parsed data) ->
  nullish data = false ->
  to_string (if truthy (member data (lit "answer"))
             then member data (lit "answer")
             else VStr (lit "(No insight returned)")) = Some text ->
  answerDiv (run (askQuestion h input) st) = text.
Proof.
  intros Hq Hid Hok Hn Hs.
  rewrite (askQuestion_accepted h input st data text Hq Hid Hok Hn Hs).
  simpl answerDiv. rewrite plotted_keeps_answer. reflexivity.
Qed.

Lemma askQuestion_success_answer_witness :
  let data := VObj [(lit "answer", VStr []); (lit "agg_preview", VArr [])] in
  answerDiv (run (askQuestion (host_answering (Response true (Parsed data))
                                 (Throws []))
                    (lit "why?")) page_with_chart)
  = lit "(No insight returned)".
Proof.
  intros data.
  apply (askQuestion_success_answer _ (lit "why?") page_with_chart data).
  - vm_compute; discriminate.
  - reflexivity.
  - reflexivity.
  - reflexivity.
  - reflexivity.
Defined.

(** X2.  After a 2xx response with a truthy [figure] and an answer
    that has a text, on a page with a chart element, the call plots
    exactly once: Plotly receives the element as it was together with
    [figure.data] and [figure.layout], the element becomes what Plotly
    made of it, and the log gains the request followed by that one
    plot. *)
Theorem askQuestion_plots_figure
    (h : host) (input : jstring) (st : state) (data : value) (gd : graph_div) :
  trim input <> [] ->
  truthy (DATASET_ID st) = true ->
  fetch h (ask_request (DATASET_ID st) (trim input))
  = Response true (Parsed data) ->
  truthy (member data (lit "figure")) = true ->
  nullish data = false ->
  shown_answer data <> None ->
  chartDiv st = Some gd ->
  let figure := member data (lit "figure") in
  let st' := run (askQuestion h input) st in
  chartDiv st'
  = Some (Plotly_newPlot h gd (member figure (lit "data"))
            (member figure (lit "layout"))) /\
  log st'
  = log st ++ [Fetch (ask_request (DATASET_ID st) (trim input));
               NewPlot (member figure (lit "data"))
                 (member figure (lit "layout"))].
Proof.
  intros Hq Hid Hok Hfig Hn Hs Hgd figure st'. subst st' figure.
  destruct (shown_answer data) as [text|] eqn:Ht; [|congruence].
  rewrite (askQuestion_accepted h input st data text Hq Hid Hok Hn Ht).
  set (s0 := answered _ _ _ _).
  assert (Hc : chartDiv s0 = Some gd) by exact Hgd.
  unfold plotted. rewrite Hfig, Hc. subst s0. simpl.
  rewrite <- app_assoc. split; reflexivity.
Qed.

Lemma askQuestion_plots_figure_witness :
  let figure := VObj [(lit "data", VArr [VObj [(lit "type", VStr (lit "line"))]]);
                      (lit "layout", VObj [(lit "title", VStr (lit "Trend"))])] in
  let data := VObj [(lit "answer", VStr (lit "Up.")); (lit "figure", figure)] in
  chartDiv (run (askQuestion (host_answering (Response true (Parsed data))
                                (Throws []))
                   (lit "trend?")) page_with_chart)
  = Some {| gd_data := VArr [VObj [(lit "type", VStr (lit "line"))]];
            gd_layout := VObj [(lit "title", VStr (lit "Trend"))] |}.
Proof.
  intros figure data.
  destruct (askQuestion_plots_figure
              (host_answering (Response true (Parsed data)) (Throws []))
              (lit "trend?") page_with_chart data
              {| gd_data := VArr [VObj [(lit "type", VStr (lit "bar"))]];
                 gd_layout := VObj [] |}) as [Hc _].
  - vm_compute; discriminate.
  - reflexivity.
  - reflexivity.
  - reflexivity.
  - reflexivity.
  - vm_compute; discriminate.
  - reflexivity.
  - exact Hc.
Defined.

(** X3.  A 2xx response whose body is [null] ends in the [catch]: the
    answer area shows "Error: " with the TypeError of reading
    [answer], the preview is empty, the chart is untouched and nothing
    is plotted. *)
Theorem askQuestion_null_body_is_error
    (h : host) (input : jstring) (st : state) :
  trim input <> [] ->
  truthy (DATASET_ID st) = true ->
  fetch h (ask_request (DATASET_ID st) (trim input))
  = Response true (Parsed VNull) ->
  run (askQuestion h input) st
  = set_answerDiv (lit "Error: " ++ TypeError_message h (lit "answer"))
      (set_previewDiv []
         (set_log (log st ++ [Fetch (ask_request (DATASET_ID st) (trim input));
                              ConsoleError (TypeError_message h (lit "answer"))])
            st)).
Proof.
  intros Hq Hid Hok. unfold run.
  rewrite (askQuestion_sends h input st Hq Hid). unfold try_catch.
  rewrite (ask_try_ok_null h _ _ VNull _ Hok eq_refl).
  destruct st. unfold ask_catch, bind, emit, modify. simpl.
  unfold set_answerDiv, set_previewDiv, set_log. simpl.
  rewrite <- app_assoc. reflexivity.
Qed.

Lemma askQuestion_null_body_is_error_witness :
  previewDiv (run (askQuestion (host_answering (Response true (Parsed VNull))
                                  (Throws []))
                     (lit "why?")) page_with_chart) = [] /\
  chartDiv (run (askQuestion (host_answering (Response true (Parsed VNull))
                                (Throws []))
                   (lit "why?")) page_with_chart)
  = chartDiv page_with_chart.
Proof.
  rewrite (askQuestion_null_body_is_error _ (lit "why?") page_with_chart).
  - split; reflexivity.
  - vm_compute; discriminate.
  - reflexivity.
  - reflexivity.
Defined.

(** X23.  A 2xx response whose answer has no text (an object with an
    own field [toString], an array holding one) ends in the [catch]
    although the request succeeded: the assignment of line 159 throws,
    the answer area shows "Error: " with the TypeError of the
    conversion, the preview is empty whatever [agg_preview] holds, the
    chart is untouched and nothing is plotted. *)
Theorem askQuestion_unshown_answer_is_error
    (h : host) (input : jstring) (st : state) (data : value) :
  trim input <> [] ->
  truthy (DATASET_ID st) = true ->
  fetch h (ask_request (DATASET_ID st) (trim input))
  = Response true (Parsed data) ->
  nullish data = false ->
  to_string (if truthy (member data (lit "answer"))
             then member data (lit "answer")
             else VStr (lit "(No insight returned)")) = None ->
  run (askQuestion h input) st
  = set_answerDiv (lit "Error: " ++ ToPrimitive_message h)
      (set_previewDiv []
         (set_log (log st ++ [Fetch (ask_request (DATASET_ID st) (trim input));
                              ConsoleError (ToPrimitive_message h)])
            st)).
Proof.
  intros Hq Hid Hok Hn Hs.
  exact (askQuestion_unshown h input st data Hq Hid Hok Hn Hs).
Qed.

Lemma askQuestion_unshown_answer_is_error_witness :
  let data := VObj [(lit "answer", VArr [VObj [(lit "toString", VNull)]]);
                    (lit "agg_preview", VArr [VObj []])] in
  let h := host_answering (Response true (Parsed data)) (Throws []) in
  answerDiv (run (askQuestion h (lit "why?")) page_with_chart)
  = lit "Error: Cannot convert object to primitive value".
Proof.
  intros data h.
  rewrite (askQuestion_unshown_answer_is_error h (lit "why?") page_with_chart
             data).
  - reflexivity.
  - vm_compute; discriminate.
  - reflexivity.
  - reflexivity.
  - reflexivity.
  - reflexivity.
Defined.

(** ** askQuestion: what it sends and what it leaves alone *)

Lemma plotted_log (h : host) (data : value) (st : state) :
  exists rest, log (plotted h data st) = log st ++ rest /\ no_fetch rest = true.
Proof.
  unfold plotted.
  destruct (if truthy (member data (lit "figure")) then chartDiv st else None).
  - eexists. split; reflexivity.
  - exists []. rewrite app_nil_r. split; reflexivity.
Qed.

Lemma askQuestion_log (h : host) (input : jstring) (st : state) :
  trim input <> [] ->
  truthy (DATASET_ID st) = true ->
  exists rest,
    log (run (askQuestion h input) st)
    = log st ++ Fetch (ask_request (DATASET_ID st) (trim input)) :: rest /\
    no_fetch rest = true.
Proof.
  intros Hq Hid.
  destruct (failure_message h (lit "Ask failed")
              (fetch h (ask_request (DATASET_ID st) (trim input))))
    as [m|] eqn:Hf.
  - exists [ConsoleError m]. split; [|reflexivity].
    unfold run. rewrite (askQuestion_sends h input st Hq Hid).
    unfold try_catch. rewrite (ask_try_fails h _ _ m _ Hf).
    simpl. rewrite <- app_assoc. reflexivity.
  - destruct (failure_message_none _ _ _ Hf) as [data Hok].
    destruct (nullish data) eqn:Hn.
    + exists [ConsoleError (TypeError_message h (lit "answer"))].
      split; [|reflexivity].
      unfold run. rewrite (askQuestion_sends h input st Hq Hid).
      unfold try_catch. rewrite (ask_try_ok_null h _ _ data _ Hok Hn).
      simpl. rewrite <- app_assoc. reflexivity.
    + destruct (shown_answer data) as [text|] eqn:Ht.
      * rewrite (askQuestion_accepted h input st data text Hq Hid Hok Hn Ht).
        simpl log at 1.
        destruct (plotted_log h data
                    (answered (DATASET_ID st) (trim input) text
                       (set_previewDiv []
                          (set_answerDiv (lit "Thinking...") st))))
          as (rest & E & Hrest).
        exists rest. split; [|exact Hrest].
        rewrite E. simpl. rewrite <- app_assoc. reflexivity.
      * exists [ConsoleError (ToPrimitive_message h)]. split; [|reflexivity].
        rewrite (askQuestion_unshown h input st data Hq Hid Hok Hn Ht).
        reflexivity.
Qed.

(** X4.  A non-blank question asked with a dataset id set sends exactly
    one request, whatever the backend answers: the first thing the call
    logs is the POST to "/api/ask" carrying the current [DATASET_ID]
    and the trimmed question, and nothing logged after it is a request
    (no retry). *)
Theorem askQuestion_sends_one_request
    (h : host) (input : jstring) (st : state) :
  trim input <> [] ->
  truthy (DATASET_ID st) = true ->
  exists rest,
    log (run (askQuestion h input) st)
    = log st ++ Fetch {| url := lit "/api/ask"; method := lit "POST";
                         headers := [(lit "Content-Type",
                                      lit "application/json")];
                         req_body := JSON_stringify
                                       (VObj [(lit "dataset_id", DATASET_ID st);
                                              (lit "question",
                                               VStr (trim input))]) |}
               :: rest /\
    forallb (fun e => negb (is_fetch e)) rest = true.
Proof. intros Hq Hid. exact (askQuestion_log h input st Hq Hid). Qed.

Lemma askQuestion_sends_one_request_witness :
  exists rest,
    log (run (askQuestion (host_answering (Rejected (lit "Failed to fetch"))
                             (Throws []))
                (lit " total? ")) page_with_chart)
    = Fetch (ask_request (VStr (lit "d1")) (lit "total?")) :: rest /\
    forallb (fun e => negb (is_fetch e)) rest = true.
Proof.
  apply (askQuestion_sends_one_request
           (host_answering (Rejected (lit "Failed to fetch")) (Throws []))
           (lit " total? ") page_with_chart).
  - vm_compute; discriminate.
  - reflexivity.
Defined.

(** X5.  [askQuestion] leaves the page exactly as it was if and only if
    the input consists of white space alone (the empty input included):
    any other input either raises the alert or sends a request. *)
Theorem askQuestion_noop_iff_white_space
    (h : host) (input : jstring) (st : state) :
  run (askQuestion h input) st = st
  <-> forallb is_white_space input = true.
Proof.
  rewrite <- trim_nil_iff. split.
  - intros E. destruct (trim input) as [|c r] eqn:Hq; [reflexivity|].
    assert (Hne : trim input <> []) by (rewrite Hq; discriminate).
    assert (Hlen : List.length (log (run (askQuestion h input) st))
                   = List.length (log st)) by (rewrite E; reflexivity).
    destruct (truthy (DATASET_ID st)) eqn:Hid.
    + destruct (askQuestion_log h input st Hne Hid) as (rest & El & _).
      rewrite El, length_app in Hlen. simpl in Hlen. lia.
    + unfold run in Hlen.
      rewrite (askQuestion_no_dataset h input st Hne Hid) in Hlen.
      simpl in Hlen. rewrite length_app in Hlen. simpl in Hlen. lia.
  - intros Hq. unfold run. rewrite (askQuestion_blank h input st Hq).
    reflexivity.
Qed.

Lemma askQuestion_noop_iff_white_space_witness :
  run (askQuestion (host_answering (Rejected []) (Throws [])) [32; 10; 9]%N)
    page_with_chart = page_with_chart.
Proof.
  apply (askQuestion_noop_iff_white_space
           (host_answering (Rejected []) (Throws [])) [32; 10; 9]%N
           page_with_chart).
  reflexivity.
Defined.

(** X6.  The question that goes to the backend is the input without
    its surrounding white space: the input is a run of white space, the
    question sent, and another run of white space, and the question
    sent begins and ends with a unit that is not white space. *)
Theorem askQuestion_question_is_stripped
    (h : host) (input : jstring) (st : state) :
  trim input <> [] ->
  truthy (DATASET_ID st) = true ->
  exists before q after rest,
    input = before ++ q ++ after /\
    forallb is_white_space before = true /\
    forallb is_white_space after = true /\
    (exists c r, q = c :: r /\ is_white_space c = false /\
                 is_white_space (last q c) = false) /\
    log (run (askQuestion h input) st)
    = log st ++ Fetch (ask_request (DATASET_ID st) q) :: rest.
Proof.
  intros Hq Hid.
  destruct (trim_split input) as (p & s & E & Hp & Hs).
  destruct (askQuestion_log h input st Hq Hid) as (rest & El & _).
  exists p, (trim input), s, rest. repeat split; try assumption.
  destruct (trim input) as [|c r] eqn:Ht; [congruence|].
  exists c, r. split; [reflexivity|]. apply (trim_ends input c r Ht).
Qed.

Lemma askQuestion_question_is_stripped_witness :
  exists before q after rest,
    [32; 9]%N ++ lit "top 5 rows" ++ [10]%N = before ++ q ++ after /\
    forallb is_white_space before = true /\
    forallb is_white_space after = true /\
    (exists c r, q = c :: r /\ is_white_space c = false /\
                 is_white_space (last q c) = false) /\
    log (run (askQuestion (host_answering (Rejected []) (Throws []))
                ([32; 9]%N ++ lit "top 5 rows" ++ [10]%N)) page_with_chart)
    = log page_with_chart ++ Fetch (ask_request (DATASET_ID page_with_chart) q)
        :: rest.
Proof.
  apply (askQuestion_question_is_stripped
           (host_answering (Rejected []) (Throws []))
           ([32; 9]%N ++ lit "top 5 rows" ++ [10]%N) page_with_chart).
  - vm_compute; discriminate.
  - reflexivity.
Defined.

Ltac frame_ask :=
  unfold askQuestion, ask_try, ask_catch, plot_figure, show_preview, emit;
  frame.

(** X7.  [askQuestion] never writes the upload side of the page: the
    drop zone text, the dataset panel with its summary and column
    cards, and the visibility of the question panel are after the call
    what they were before, on every path. *)
Theorem askQuestion_keeps_upload_side
    (h : host) (input : jstring) (st : state) :
  let st' := run (askQuestion h input) st in
  dropzone_p st' = dropzone_p st /\
  metaPanel st' = metaPanel st /\
  metaSummary st' = metaSummary st /\
  columnsGrid st' = columnsGrid st /\
  qaPanel_hidden st' = qaPanel_hidden st.
Proof.
  assert (H1 : preserves dropzone_p (askQuestion h input)) by frame_ask.
  assert (H2 : preserves metaPanel (askQuestion h input)) by frame_ask.
  assert (H3 : preserves metaSummary (askQuestion h input)) by frame_ask.
  assert (H4 : preserves columnsGrid (askQuestion h input)) by frame_ask.
  assert (H5 : preserves qaPanel_hidden (askQuestion h input)) by frame_ask.
  simpl. unfold run. auto.
Qed.

(** ** renderMeta *)

Lemma column_card_made (h : host) (meta c : value) (made : card) (st : state) :
  nullish meta = false ->
  card_of meta c = Some made ->
  column_card h meta c st
  = (set_columnsGrid (columnsGrid st ++ [made]) st, Returns tt).
Proof.
  intros Hn Hc. unfold card_of, type_of_column, card_html in Hc.
  unfold column_card, bind, lift, to_text.
  rewrite (get_member h meta _ Hn).
  destruct (truthy (member meta (lit "logical_types"))) eqn:Hlt.
  - destruct (to_string c) as [key|]; [|discriminate].
    rewrite (get_member h _ _ (truthy_not_nullish _ Hlt)).
    destruct (to_string (member (member meta (lit "logical_types")) key));
      [|discriminate].
    injection Hc as <-. reflexivity.
  - destruct (to_string c) as [name|]; [|discriminate].
    simpl in Hc. injection Hc as <-. reflexivity.
Qed.

Lemma column_card_fails (h : host) (meta c : value) (st : state) :
  nullish meta = false ->
  card_of meta c = None ->
  column_card h meta c st = (st, Throws (ToPrimitive_message h)).
Proof.
  intros Hn Hc. unfold card_of, type_of_column, card_html in Hc.
  unfold column_card, bind, lift, to_text.
  rewrite (get_member h meta _ Hn).
  destruct (truthy (member meta (lit "logical_types"))) eqn:Hlt.
  - destruct (to_string c) as [key|]; [|reflexivity].
    rewrite (get_member h _ _ (truthy_not_nullish _ Hlt)).
    destruct (to_string (member (member meta (lit "logical_types")) key));
      [discriminate|reflexivity].
  - destruct (to_string c) as [name|]; [|reflexivity].
    simpl in Hc. discriminate.
Qed.

(** The loop appends the cards of the columns, in order. *)
Lemma forEach_column_card (h : host) (meta : value) (items : list value) :
  nullish meta = false ->
  forall cards st,
    cards_of meta items = Some cards ->
    forEach items (column_card h meta) st
    = (set_columnsGrid (columnsGrid st ++ cards) st, Returns tt).
Proof.
  intros Hn. induction items as [|c items IH]; intros cards st Hc.
  - injection Hc as <-. simpl. rewrite app_nil_r. destruct st; reflexivity.
  - simpl in Hc.
    destruct (card_of meta c) as [made|] eqn:Hm; [|discriminate].
    destruct (cards_of meta items) as [rest|]; [|discriminate].
    injection Hc as <-.
    simpl forEach. unfold bind. rewrite (column_card_made h meta c made st Hn Hm).
    rewrite (IH rest _ eq_refl). destruct st; simpl.
    unfold set_columnsGrid; simpl. rewrite <- app_assoc. reflexivity.
Qed.

(** The loop stops at the first column whose card cannot be made. *)
Lemma forEach_column_card_fails (h : host) (meta : value) (items : list value) :
  nullish meta = false ->
  cards_of meta items = None ->
  forall st,
    snd (forEach items (column_card h meta) st)
    = Throws (ToPrimitive_message h).
Proof.
  intros Hn. induction items as [|c items IH]; intros Hc st.
  - discriminate.
  - simpl in Hc. simpl forEach. unfold bind.
    destruct (card_of meta c) as [made|] eqn:Hm.
    + rewrite (column_card_made h meta c made st Hn Hm).
      apply IH. destruct (cards_of meta items); [discriminate|reflexivity].
    + rewrite (column_card_fails h meta c st Hn Hm). reflexivity.
Qed.

Lemma cards_of_each (meta : value) (items : list value) (cards : list card) :
  cards_of meta items = Some cards ->
  map Some cards = map (card_of meta) items.
Proof.
  revert cards. induction items as [|c items IH]; intros cards Hc.
  - injection Hc as <-. reflexivity.
  - simpl in Hc.
    destruct (card_of meta c) as [made|] eqn:Hm; [|discriminate].
    destruct (cards_of meta items) as [rest|]; [|discriminate].
    injection Hc as <-. simpl. rewrite Hm, (IH rest eq_refl). reflexivity.
Qed.

Lemma cards_of_all (meta : value) (items : list value) :
  (forall c, In c items -> card_of meta c <> None) ->
  exists cards, cards_of meta items = Some cards.
Proof.
  induction items as [|c items IH]; intros Hall.
  - exists []. reflexivity.
  - destruct (card_of meta c) as [made|] eqn:Hm.
    + destruct IH as [rest Hr].
      { intros x Hx. apply Hall. right. exact Hx. }
      exists (made :: rest). simpl. rewrite Hm, Hr. reflexivity.
    + exfalso. apply (Hall c); [left; reflexivity | exact Hm].
Qed.

Lemma renderMeta_absent (h : host) (meta : value) (st : state) :
  metaPanel st = None -> renderMeta h meta st = (st, Returns tt).
Proof. intros Hp. unfold renderMeta, bind, gets. rewrite Hp. reflexivity. Qed.

Lemma quick_trend_text (h : host) (meta : value) (s : state) :
  (if truthy (member meta (lit "summary"))
   then lift (get h (member meta (lit "summary")) (lit "quick_trend"))
   else ret (member meta (lit "summary"))) s
  = (s, Returns (if truthy (member meta (lit "summary"))
                 then member (member meta (lit "summary")) (lit "quick_trend")
                 else member meta (lit "summary"))).
Proof.
  destruct (truthy (member meta (lit "summary"))) eqn:Hs.
  - unfold lift. rewrite (get_member h _ _ (truthy_not_nullish _ Hs)).
    reflexivity.
  - reflexivity.
Qed.

(** Up to the loop: the panel is shown, the summary written and the
    grid emptied. *)
Lemma renderMeta_prefix (h : host) (meta : value) (html : jstring)
    (st : state) (hidden : bool) :
  metaPanel st = Some hidden ->
  nullish meta = false ->
  summary_of meta = Some html ->
  renderMeta h meta st
  = match (if truthy (member meta (lit "columns"))
           then member meta (lit "columns") else VArr []) with
    | VArr items => forEach items (column_card h meta)
    | _ => throw (TypeError_message h (lit "forEach"))
    end (rendered html [] st).
Proof.
  intros Hp Hn Hs. unfold summary_of, quick_trend in Hs. unfold renderMeta.
  unfold bind at 1, gets at 1. rewrite Hp.
  unfold bind at 1, modify at 1.
  unfold bind at 1, lift at 1. rewrite (get_member h meta _ Hn).
  unfold bind at 1. rewrite quick_trend_text.
  unfold bind at 1, lift at 1. rewrite (get_member h meta _ Hn).
  unfold bind at 1, lift at 1, to_text at 1.
  destruct (to_string (member meta (lit "rows"))) as [rows|]; [|discriminate].
  unfold bind at 1, lift at 1. rewrite (get_member h meta _ Hn).
  unfold bind at 1, lift at 1, to_text at 1.
  destruct (to_string (member meta (lit "cols"))) as [cols|]; [|discriminate].
  unfold bind at 1, lift at 1, to_text at 1.
  match type of Hs with
  | match to_string ?t with _ => _ end = _ =>
      destruct (to_string t) as [trend|]; [|discriminate]
  end.
  injection Hs as <-.
  unfold bind at 1, modify at 1.
  unfold bind at 1, modify at 1.
  unfold bind at 1, lift at 1. rewrite (get_member h meta _ Hn).
  destruct st; reflexivity.
Qed.

(** A substitution of the summary line without a text stops the render
    before anything but the panel's visibility is written. *)
Lemma renderMeta_summary_fails (h : host) (meta : value) (st : state)
    (hidden : bool) :
  metaPanel st = Some hidden ->
  nullish meta = false ->
  summary_of meta = None ->
  renderMeta h meta st
  = (set_metaPanel (Some false) st, Throws (ToPrimitive_message h)).
Proof.
  intros Hp Hn Hs. unfold summary_of, quick_trend in Hs. unfold renderMeta.
  unfold bind at 1, gets at 1. rewrite Hp.
  unfold bind at 1, modify at 1.
  unfold bind at 1, lift at 1. rewrite (get_member h meta _ Hn).
  unfold bind at 1. rewrite quick_trend_text.
  unfold bind at 1, lift at 1. rewrite (get_member h meta _ Hn).
  unfold bind at 1, lift at 1, to_text at 1.
  destruct (to_string (member meta (lit "rows"))) as [rows|]; [|reflexivity].
  unfold bind at 1, lift at 1. rewrite (get_member h meta _ Hn).
  unfold bind at 1, lift at 1, to_text at 1.
  destruct (to_string (member meta (lit "cols"))) as [cols|]; [|reflexivity].
  unfold bind at 1, lift at 1, to_text at 1.
  match type of Hs with
  | match to_string ?t with _ => _ end = _ =>
      destruct (to_string t) as [trend|]; [discriminate|reflexivity]
  end.
Qed.

Lemma renderMeta_renders
    (h : host) (meta : value) (html : jstring) (items : list value)
    (cards : list card) (st : state) (hidden : bool) :
  metaPanel st = Some hidden ->
  nullish meta = false ->
  summary_of meta = Some html ->
  columns_of meta = Some items ->
  cards_of meta items = Some cards ->
  renderMeta h meta st = (rendered html cards st, Returns tt).
Proof.
  intros Hp Hn Hs Hc Hk. rewrite (renderMeta_prefix h meta html st hidden Hp Hn Hs).
  unfold columns_of in Hc.
  destruct (truthy (member meta (lit "columns"))) eqn:Hcol.
  - destruct (member meta (lit "columns")); try discriminate.
    injection Hc as ->.
    rewrite (forEach_column_card h meta items Hn cards _ Hk).
    destruct st; reflexivity.
  - injection Hc as <-. injection Hk as <-. destruct st; reflexivity.
Qed.

(** A render that cannot run to its end throws [render_error]. *)
Lemma renderMeta_stops
    (h : host) (meta : value) (st : state) (hidden : bool) (message : jstring) :
  metaPanel st = Some hidden ->
  render_error h meta = Some message ->
  snd (renderMeta h meta st) = Throws message.
Proof.
  intros Hp He. unfold render_error in He.
  destruct (nullish meta) eqn:Hn.
  - injection He as <-. unfold renderMeta.
    unfold bind at 1, gets at 1. rewrite Hp.
    unfold bind at 1, modify at 1.
    unfold bind at 1, lift at 1, get. rewrite Hn. reflexivity.
  - destruct (summary_of meta) as [html|] eqn:Hs.
    + rewrite (renderMeta_prefix h meta html st hidden Hp Hn Hs).
      unfold columns_of in He.
      destruct (truthy (member meta (lit "columns"))).
      * destruct (member meta (lit "columns")) as [| | | | |items| |];
          try (injection He as <-; reflexivity).
        destruct (cards_of meta items) eqn:Hk; [discriminate|].
        injection He as <-.
        apply (forEach_column_card_fails h meta items Hn Hk).
      * simpl in He. discriminate.
    + injection He as <-.
      rewrite (renderMeta_summary_fails h meta st hidden Hp Hn Hs). reflexivity.
Qed.

(** A render without [render_error] has a summary line and cards. *)
Lemma render_error_none (h : host) (meta : value) :
  render_error h meta = None ->
  nullish meta = false /\
  exists html items cards,
    summary_of meta = Some html /\ columns_of meta = Some items /\
    cards_of meta items = Some cards.
Proof.
  unfold render_error. destruct (nullish meta); [discriminate|].
  destruct (summary_of meta) as [html|] eqn:Hs; [|discriminate].
  destruct (columns_of meta) as [items|] eqn:Hc; [|discriminate].
  destruct (cards_of meta items) as [cards|] eqn:Hk; [|discriminate].
  intros _. split; [reflexivity|]. exists html, items, cards.
  repeat split; try reflexivity; exact Hk.
Qed.

(** X8.  On a page with a dataset panel, rendering a [meta] whose
    summary line can be written, whose [columns] is an array (or
    missing) and whose columns all have a card, shows the panel and
    fills the grid with exactly one card per column, in the order of
    the array: the card of a column is [card_of], its text in bold and,
    in small print, the text of what [logical_types] answers for it
    (nothing when [meta] has no [logical_types]).  Whatever the grid
    held before is gone. *)
Theorem renderMeta_one_card_per_column
    (h : host) (meta : value) (items : list value) (st : state) (hidden : bool) :
  metaPanel st = Some hidden ->
  nullish meta = false ->
  summary_of meta <> None ->
  columns_of meta = Some items ->
  (forall c, In c items -> card_of meta c <> None) ->
  let st' := run (renderMeta h meta) st in
  metaPanel st' = Some false /\
  List.length (columnsGrid st') = List.length items /\
  map Some (columnsGrid st') = map (card_of meta) items.
Proof.
  intros Hp Hn Hs Hc Hall.
  destruct (summary_of meta) as [html|] eqn:Hh; [|congruence].
  destruct (cards_of_all meta items Hall) as [cards Hk].
  unfold run.
  rewrite (renderMeta_renders h meta html items cards st hidden Hp Hn Hh Hc Hk).
  simpl. pose proof (cards_of_each meta items cards Hk) as He.
  repeat split.
  - rewrite <- (length_map Some cards), He. apply length_map.
  - exact He.
Qed.

Lemma renderMeta_one_card_per_column_witness :
  let meta := VObj [(lit "columns", VArr [VNum (integer 0); VNum (integer 1)]);
                    (lit "logical_types",
                     VArr [VStr (lit "int"); VStr (lit "str")])] in
  map innerHTML
    (columnsGrid (run (renderMeta (host_answering (Rejected []) (Throws []))
                         meta) page_with_chart))
  = [lit "<b>0</b><br/><small>int</small>";
     lit "<b>1</b><br/><small>str</small>"].
Proof.
  intros meta.
  destruct (renderMeta_one_card_per_column
              (host_answering (Rejected []) (Throws [])) meta
              [VNum (integer 0); VNum (integer 1)] page_with_chart true)
    as (_ & _ & He).
  - reflexivity.
  - reflexivity.
  - vm_compute; discriminate.
  - reflexivity.
  - intros c [<-|[<-|[]]]; vm_compute; discriminate.
  - assert (Hinj : forall a b : list card, map Some a = map Some b -> a = b).
    { induction a as [|x a IH]; intros [|y b] E; simpl in E; try discriminate.
      - reflexivity.
      - injection E as -> E. rewrite (IH b E). reflexivity. }
    rewrite (Hinj _ [ {| className := lit "card";
                         innerHTML := lit "<b>0</b><br/><small>int</small>" |};
                      {| className := lit "card";
                         innerHTML := lit "<b>1</b><br/><small>str</small>" |} ]
               He).
    reflexivity.
Defined.

(** X9.  The summary line.  When [rows], [cols] and the quick trend
    have a text, the summary holds them in the template of lines
    101-104, also when the loop over the columns throws afterwards; the
    quick trend is [meta.summary.quick_trend] when [summary] and it are
    truthy, and an em dash otherwise. *)
Theorem renderMeta_quick_trend_default
    (h : host) (meta : value) (st : state) (hidden : bool)
    (rows cols trend : jstring) :
  metaPanel st = Some hidden ->
  nullish meta = false ->
  let summary := member meta (lit "summary") in
  let shown :=
    if truthy summary && truthy (member summary (lit "quick_trend"))
    then member summary (lit "quick_trend")
    else VStr em_dash in
  to_string (member meta (lit "rows")) = Some rows ->
  to_string (member meta (lit "cols")) = Some cols ->
  to_string shown = Some trend ->
  metaSummary (run (renderMeta h meta) st) = summary_html rows cols trend.
Proof.
  intros Hp Hn summary shown Hr Hc Ht.
  assert (Hq : quick_trend meta = shown).
  { unfold quick_trend, shown, summary.
    destruct (truthy (member meta (lit "summary"))) eqn:Hs; simpl.
    - reflexivity.
    - rewrite Hs. reflexivity. }
  assert (Hs : summary_of meta = Some (summary_html rows cols trend)).
  { unfold summary_of. rewrite Hr, Hc, Hq, Ht. reflexivity. }
  unfold run. rewrite (renderMeta_prefix h meta _ st hidden Hp Hn Hs).
  match goal with
  | |- metaSummary (fst (?K ?s)) = _ =>
      assert (HK : preserves metaSummary K)
        by (unfold column_card; frame);
      rewrite (HK s)
  end.
  reflexivity.
Qed.

Lemma renderMeta_quick_trend_default_witness :
  let meta := VObj [(lit "rows", VNum {| number_text := lit "1e+21";
                                         number_truthy := true |});
                    (lit "cols", VNum (integer 3));
                    (lit "summary", VObj [(lit "quick_trend", VStr [])]);
                    (lit "columns", VStr (lit "a,b"))] in
  metaSummary (run (renderMeta (host_answering (Rejected []) (Throws []))
                      meta) fresh_page)
  = summary_html (lit "1e+21") (lit "3") em_dash.
Proof.
  intros meta.
  apply (renderMeta_quick_trend_default
           (host_answering (Rejected []) (Throws [])) meta fresh_page true);
    reflexivity.
Defined.

Ltac frame_render := unfold renderMeta, column_card, emit; frame.

Lemma renderMeta_frame
    (h : host) (meta : value) (st : state) :
  log (run (renderMeta h meta) st) = log st /\
  DATASET_ID (run (renderMeta h meta) st) = DATASET_ID st /\
  dropzone_p (run (renderMeta h meta) st) = dropzone_p st /\
  qaPanel_hidden (run (renderMeta h meta) st) = qaPanel_hidden st /\
  answerDiv (run (renderMeta h meta) st) = answerDiv st /\
  previewDiv (run (renderMeta h meta) st) = previewDiv st /\
  chartDiv (run (renderMeta h meta) st) = chartDiv st /\
  body_children (run (renderMeta h meta) st) = body_children st.
Proof.
  assert (H1 : preserves log (renderMeta h meta)) by frame_render.
  assert (H2 : preserves DATASET_ID (renderMeta h meta)) by frame_render.
  assert (H3 : preserves dropzone_p (renderMeta h meta)) by frame_render.
  assert (H4 : preserves qaPanel_hidden (renderMeta h meta)) by frame_render.
  assert (H5 : preserves answerDiv (renderMeta h meta)) by frame_render.
  assert (H6 : preserves previewDiv (renderMeta h meta)) by frame_render.
  assert (H7 : preserves chartDiv (renderMeta h meta)) by frame_render.
  assert (H8 : preserves body_children (renderMeta h meta)) by frame_render.
  unfold run. repeat split; auto.
Qed.

(** X10.  [renderMeta] writes the dataset panel and nothing else: it
    makes no call that leaves the script (the log is unchanged), and
    the dataset id, the drop zone text, the question panel, the answer,
    the preview and the chart are what they were, also when the render
    throws. *)
Theorem renderMeta_writes_only_the_panel
    (h : host) (meta : value) (st : state) :
  let st' := run (renderMeta h meta) st in
  log st' = log st /\
  DATASET_ID st' = DATASET_ID st /\
  dropzone_p st' = dropzone_p st /\
  qaPanel_hidden st' = qaPanel_hidden st /\
  answerDiv st' = answerDiv st /\
  previewDiv st' = previewDiv st /\
  chartDiv st' = chartDiv st /\
  body_children st' = body_children st.
Proof.
  assert (H1 : preserves log (renderMeta h meta)) by frame_render.
  assert (H2 : preserves DATASET_ID (renderMeta h meta)) by frame_render.
  assert (H3 : preserves dropzone_p (renderMeta h meta)) by frame_render.
  assert (H4 : preserves qaPanel_hidden (renderMeta h meta)) by frame_render.
  assert (H5 : preserves answerDiv (renderMeta h meta)) by frame_render.
  assert (H6 : preserves previewDiv (renderMeta h meta)) by frame_render.
  assert (H7 : preserves chartDiv (renderMeta h meta)) by frame_render.
  assert (H8 : preserves body_children (renderMeta h meta)) by frame_render.
  simpl. unfold run. repeat split; auto.
Qed.

(** A page with a dataset panel keeps it through any render. *)
Lemma renderMeta_keeps_panel (h : host) (meta : value) (st : state) (hidden : bool) :
  metaPanel st = Some hidden ->
  metaPanel (run (renderMeta h meta) st) = Some false.
Proof.
  intros Hp. unfold run, renderMeta.
  unfold bind at 1, gets at 1. rewrite Hp.
  unfold bind at 1, modify at 1.
  match goal with
  | |- metaPanel (fst (?K ?s)) = _ =>
      assert (HK : preserves metaPanel K) by (unfold column_card; frame);
      rewrite (HK s)
  end.
  reflexivity.
Qed.

Lemma rendered_ext (html : jstring) (cards : list card) (s1 s2 : state) :
  log s1 = log s2 -> DATASET_ID s1 = DATASET_ID s2 ->
  dropzone_p s1 = dropzone_p s2 -> qaPanel_hidden s1 = qaPanel_hidden s2 ->
  answerDiv s1 = answerDiv s2 -> previewDiv s1 = previewDiv s2 ->
  chartDiv s1 = chartDiv s2 -> body_children s1 = body_children s2 ->
  rendered html cards s1 = rendered html cards s2.
Proof.
  destruct s1, s2; simpl. intros; subst. reflexivity.
Qed.

(** X11.  A render that runs to its end (no [render_error]) replaces
    whatever an earlier render left, complete or not: rendering [meta]
    after any [previous] payload gives the page that rendering [meta]
    alone gives.  In particular rendering the same payload twice is the
    same as rendering it once. *)
Theorem renderMeta_replaces_previous_render
    (h : host) (previous meta : value) (st : state) :
  render_error h meta = None ->
  run (renderMeta h meta) (run (renderMeta h previous) st)
  = run (renderMeta h meta) st.
Proof.
  intros He.
  destruct (render_error_none h meta He)
    as (Hn & html & items & cards & Hs & Hc & Hk).
  destruct (metaPanel st) as [hidden|] eqn:Hp.
  - pose proof (renderMeta_keeps_panel h previous st hidden Hp) as Hp1.
    destruct (renderMeta_frame h previous st)
      as (F1 & F2 & F3 & F4 & F5 & F6 & F7 & F8).
    unfold run at 1 3.
    rewrite (renderMeta_renders h meta html items cards _ false Hp1 Hn Hs Hc Hk).
    rewrite (renderMeta_renders h meta html items cards st hidden Hp Hn Hs Hc Hk).
    apply rendered_ext; assumption.
  - unfold run. rewrite (renderMeta_absent h previous st Hp). reflexivity.
Qed.

Lemma renderMeta_replaces_previous_render_witness :
  let bad := VObj [(lit "rows", VObj [(lit "toString", VNum (integer 1))]);
                   (lit "columns", VArr [])] in
  run (renderMeta (host_answering (Rejected []) (Throws [])) example_meta)
    (run (renderMeta (host_answering (Rejected []) (Throws [])) bad)
       fresh_page)
  = run (renderMeta (host_answering (Rejected []) (Throws [])) example_meta)
      fresh_page.
Proof.
  intros bad.
  apply (renderMeta_replaces_previous_render
           (host_answering (Rejected []) (Throws [])) bad example_meta
           fresh_page).
  reflexivity.
Defined.

(** ** handleUpload: the accepted response *)

Lemma upload_try_accepts (h : host) (f : file) (data : value) (st : state) :
  fetch h (upload_request f) = Response true (Parsed data) ->
  upload_try h f st
  = upload_accept h data (set_log (log st ++ [Fetch (upload_request f)]) st).
Proof.
  intros E. unfold upload_try, upload_accept, bind, emit, modify.
  rewrite E. reflexivity.
Qed.

(** The state in which the response of an upload is handled. *)
Lemma handleUpload_accepts (h : host) (f : file) (data : value) (st : state) :
  fetch h (upload_request f) = Response true (Parsed data) ->
  handleUpload h (Some f) st
  = try_catch (upload_accept h data) upload_catch
      (set_log (log st ++ [Fetch (upload_request f)])
         (set_dropzone_p (lit "Uploading...") st)).
Proof.
  intros E. unfold handleUpload, bind at 1, modify at 1, try_catch.
  rewrite (upload_try_accepts h f data _ E). reflexivity.
Qed.

Lemma try_catch_field {F : Type} (field : state -> F)
    (b : script unit) (handler : jstring -> script unit) (st : state) :
  (forall e, preserves field (handler e)) ->
  field (fst (try_catch b handler st)) = field (fst (b st)).
Proof.
  intros Hh. unfold try_catch. destruct (b st) as [st' [[]|e]]; simpl.
  - reflexivity.
  - apply Hh.
Qed.

(** Once the body of a 2xx response is there, [DATASET_ID] is
    overwritten before anything is rendered. *)
Lemma handleUpload_dataset_id (h : host) (f : file) (data : value) (st : state) :
  fetch h (upload_request f) = Response true (Parsed data) ->
  nullish data = false ->
  DATASET_ID (run (handleUpload h (Some f)) st) = member data (lit "dataset_id").
Proof.
  intros E Hn. unfold run. rewrite (handleUpload_accepts h f data st E).
  rewrite try_catch_field by (intros e; unfold upload_catch, emit; frame).
  unfold upload_accept.
  unfold bind at 1, lift at 1. rewrite (get_member h data _ Hn).
  unfold bind at 1, modify at 1.
  match goal with
  | |- DATASET_ID (fst (?K ?s)) = _ =>
      assert (HK : preserves DATASET_ID K) by frame_render;
      rewrite (HK s)
  end.
  reflexivity.
Qed.

Lemma handleUpload_accepted_state
    (h : host) (f : file) (data : value) (html : jstring) (items : list value)
    (cards : list card) (st : state) (hidden : bool) :
  fetch h (upload_request f) = Response true (Parsed data) ->
  nullish data = false ->
  metaPanel st = Some hidden ->
  nullish (member data (lit "meta")) = false ->
  summary_of (member data (lit "meta")) = Some html ->
  columns_of (member data (lit "meta")) = Some items ->
  cards_of (member data (lit "meta")) items = Some cards ->
  run (handleUpload h (Some f)) st
  = set_qaPanel_hidden false
      (set_dropzone_p (lit "Upload complete! Ask a question below.")
         (rendered html cards
            (set_DATASET_ID (member data (lit "dataset_id"))
               (set_log (log st ++ [Fetch (upload_request f)])
                  (set_dropzone_p (lit "Uploading...") st))))).
Proof.
  intros E Hn Hp Hm Hs Hc Hk. unfold run.
  rewrite (handleUpload_accepts h f data st E).
  unfold try_catch, upload_accept.
  unfold bind at 1, lift at 1. rewrite (get_member h data _ Hn).
  unfold bind at 1, modify at 1.
  unfold bind at 1, lift at 1. rewrite (get_member h data _ Hn).
  unfold bind at 1.
  match goal with
  | |- context [renderMeta h ?m ?s] =>
      rewrite (renderMeta_renders h m html items cards s hidden Hp Hm Hs Hc Hk)
  end.
  reflexivity.
Qed.

(** X12.  An accepted upload (2xx, an object body, a [meta] that
    renders to its end: its summary line can be written, its [columns]
    is an array or missing, each column has a card), on a page with a
    dataset panel: [DATASET_ID] becomes [data.dataset_id], the panel is
    shown with the summary line and one card per column, the drop zone
    says the upload is complete, the question panel is revealed, and
    the only call made is the one request. *)
Theorem handleUpload_success
    (h : host) (f : file) (data : value) (html : jstring) (items : list value)
    (cards : list card) (st : state) (hidden : bool) :
  fetch h (upload_request f) = Response true (Parsed data) ->
  nullish data = false ->
  metaPanel st = Some hidden ->
  nullish (member data (lit "meta")) = false ->
  summary_of (member data (lit "meta")) = Some html ->
  columns_of (member data (lit "meta")) = Some items ->
  cards_of (member data (lit "meta")) items = Some cards ->
  let st' := run (handleUpload h (Some f)) st in
  DATASET_ID st' = member data (lit "dataset_id") /\
  metaPanel st' = Some false /\
  metaSummary st' = html /\
  columnsGrid st' = cards /\
  dropzone_p st' = lit "Upload complete! Ask a question below." /\
  qaPanel_hidden st' = false /\
  log st' = log st ++ [Fetch (upload_request f)].
Proof.
  intros E Hn Hp Hm Hs Hc Hk.
  rewrite (handleUpload_accepted_state h f data html items cards st hidden
             E Hn Hp Hm Hs Hc Hk).
  simpl. repeat split.
Qed.

Lemma handleUpload_success_witness :
  let st' := run (handleUpload
                    (host_answering (Response true (Parsed example_upload))
                       (Throws [])) (Some sales_csv)) fresh_page in
  DATASET_ID st' = VStr (lit "d1") /\ qaPanel_hidden st' = false.
Proof.
  destruct (handleUpload_success
              (host_answering (Response true (Parsed example_upload)) (Throws []))
              sales_csv example_upload
              (summary_html (lit "10") (lit "3") em_dash)
              [VStr (lit "a"); VStr (lit "b"); VStr (lit "c")]
              [ {| className := lit "card";
                   innerHTML := lit "<b>a</b><br/><small>numeric</small>" |};
                {| className := lit "card";
                   innerHTML := lit "<b>b</b><br/><small>undefined</small>" |};
                {| className := lit "card";
                   innerHTML := lit "<b>c</b><br/><small>undefined</small>" |} ]
              fresh_page true)
    as (Hid & _ & _ & _ & _ & Hqa & _).
  - reflexivity.
  - reflexivity.
  - reflexivity.
  - reflexivity.
  - reflexivity.
  - reflexivity.
  - reflexivity.
  - split; [exact Hid | exact Hqa].
Defined.

Lemma handleUpload_render_throws
    (h : host) (f : file) (data : value) (st : state) (hidden : bool)
    (message : jstring) :
  fetch h (upload_request f) = Response true (Parsed data) ->
  nullish data = false ->
  metaPanel st = Some hidden ->
  render_error h (member data (lit "meta")) = Some message ->
  run (handleUpload h (Some f)) st
  = run (upload_catch message)
      (run (renderMeta h (member data (lit "meta")))
         (set_DATASET_ID (member data (lit "dataset_id"))
            (set_log (log st ++ [Fetch (upload_request f)])
               (set_dropzone_p (lit "Uploading...") st)))).
Proof.
  intros E Hn Hp He. unfold run at 1.
  rewrite (handleUpload_accepts h f data st E).
  unfold try_catch, upload_accept.
  unfold bind at 1, lift at 1. rewrite (get_member h data _ Hn).
  unfold bind at 1, modify at 1.
  unfold bind at 1, lift at 1. rewrite (get_member h data _ Hn).
  unfold bind at 1.
  set (s1 := set_DATASET_ID _ _).
  assert (Hp1 : metaPanel s1 = Some hidden) by exact Hp.
  pose proof (renderMeta_stops h _ s1 hidden message Hp1 He) as Hs.
  unfold run at 2.
  destruct (renderMeta h (member data (lit "meta")) s1) as [s2 o].
  simpl in Hs. subst o. reflexivity.
Qed.

(** X13.  A 2xx response whose [meta] cannot be rendered to the end
    ([meta] is missing or [null], a substitution of the summary line or
    of a card has no text, or [columns] is truthy and not an array:
    [render_error] names the TypeError that stops the render) still
    replaces [DATASET_ID] by [data.dataset_id]; the drop zone then
    shows "Error: " with that TypeError, the dataset panel has been
    shown, and the question panel is not revealed: its visibility is
    what it was. *)
Theorem handleUpload_render_failure
    (h : host) (f : file) (data : value) (st : state) (hidden : bool)
    (message : jstring) :
  fetch h (upload_request f) = Response true (Parsed data) ->
  nullish data = false ->
  metaPanel st = Some hidden ->
  render_error h (member data (lit "meta")) = Some message ->
  let st' := run (handleUpload h (Some f)) st in
  DATASET_ID st' = member data (lit "dataset_id") /\
  dropzone_p st' = lit "Error: " ++ message /\
  metaPanel st' = Some false /\
  qaPanel_hidden st' = qaPanel_hidden st /\
  log st' = log st ++ [Fetch (upload_request f); ConsoleError message].
Proof.
  intros E Hn Hp He st'.
  split; [exact (handleUpload_dataset_id h f data st E Hn)|].
  subst st'.
  rewrite (handleUpload_render_throws h f data st hidden message E Hn Hp He).
  set (s1 := set_DATASET_ID _ _).
  assert (Hp1 : metaPanel s1 = Some hidden) by exact Hp.
  pose proof (renderMeta_keeps_panel h (member data (lit "meta")) s1 hidden Hp1)
    as Hk.
  destruct (renderMeta_frame h (member data (lit "meta")) s1)
    as (F1 & _ & _ & F4 & _).
  unfold run at 1 3 5 7. simpl.
  rewrite Hk, F4, F1. subst s1. simpl.
  rewrite <- app_assoc. repeat split.
Qed.

Lemma handleUpload_render_failure_witness :
  let data := VObj [(lit "dataset_id", VStr (lit "d2"))] in
  let h := host_answering (Response true (Parsed data)) (Throws []) in
  let st' := run (handleUpload h (Some sales_csv)) page_with_chart in
  DATASET_ID st' = VStr (lit "d2") /\
  dropzone_p st' = lit "Error: " ++ TypeError_message h (lit "summary").
Proof.
  intros data h st'.
  destruct (handleUpload_render_failure h sales_csv data page_with_chart true
              (TypeError_message h (lit "summary")))
    as (Hid & Hd & _).
  - reflexivity.
  - reflexivity.
  - reflexivity.
  - reflexivity.
  - split; [exact Hid | exact Hd].
Defined.

(** ** handleUpload: what it sends and what it leaves alone *)

Ltac frame_upload :=
  unfold handleUpload, upload_try, upload_accept, upload_catch, renderMeta,
    column_card, emit;
  frame.

(** X14.  [handleUpload] never writes the answer side of the page:
    after an upload, accepted or failed, the answer text, the preview
    and the chart of the previous dataset are still what they were. *)
Theorem handleUpload_keeps_answer_side
    (h : host) (file : option file) (st : state) :
  let st' := run (handleUpload h file) st in
  answerDiv st' = answerDiv st /\
  previewDiv st' = previewDiv st /\
  chartDiv st' = chartDiv st /\
  body_children st' = body_children st.
Proof.
  assert (H1 : preserves answerDiv (handleUpload h file)) by frame_upload.
  assert (H2 : preserves previewDiv (handleUpload h file)) by frame_upload.
  assert (H3 : preserves chartDiv (handleUpload h file)) by frame_upload.
  assert (H4 : preserves body_children (handleUpload h file)) by frame_upload.
  simpl. unfold run. auto.
Qed.

Lemma upload_accept_keeps_log (h : host) (data : value) :
  preserves log (upload_accept h data).
Proof. unfold upload_accept. frame_render. Qed.

Lemma handleUpload_log (h : host) (f : file) (st : state) :
  exists rest,
    log (run (handleUpload h (Some f)) st)
    = log st ++ Fetch (upload_request f) :: rest /\
    no_fetch rest = true.
Proof.
  destruct (failure_message h (lit "Upload failed")
              (fetch h (upload_request f))) as [m|] eqn:Hf.
  - exists [ConsoleError m]. split; [|reflexivity].
    unfold run, handleUpload, bind at 1, modify at 1, try_catch.
    rewrite (upload_try_fails h f m _ Hf). simpl.
    rewrite <- app_assoc. reflexivity.
  - destruct (failure_message_none _ _ _ Hf) as [data Hok].
    unfold run. rewrite (handleUpload_accepts h f data st Hok).
    unfold try_catch.
    pose proof (upload_accept_keeps_log h data
                  (set_log (log st ++ [Fetch (upload_request f)])
                     (set_dropzone_p (lit "Uploading...") st))) as Hl.
    destruct (upload_accept h data _) as [s' [[]|e]]; simpl in Hl |- *.
    + exists []. rewrite Hl. split; reflexivity.
    + exists [ConsoleError e]. rewrite Hl, <- app_assoc. split; reflexivity.
Qed.

(** X15.  With no file selected [handleUpload] does nothing at all.
    With a file it sends exactly one request, whatever the backend
    answers: the first thing it logs is the POST to "/api/upload" whose
    form carries that file under the name "file", and nothing logged
    after it is a request. *)
Theorem handleUpload_sends_one_request
    (h : host) (file : option file) (st : state) :
  match file with
  | None => run (handleUpload h None) st = st
  | Some f =>
      exists rest,
        log (run (handleUpload h (Some f)) st)
        = log st ++ Fetch {| url := lit "/api/upload"; method := lit "POST";
                             headers := [];
                             req_body := FormData [(lit "file", f)] |} :: rest /\
        forallb (fun e => negb (is_fetch e)) rest = true
  end.
Proof.
  destruct file as [f|].
  - exact (handleUpload_log h f st).
  - reflexivity.
Qed.

(** X16.  An upload whose response is 2xx with an object body enables
    questions on the new dataset, whether or not its [meta] could be
    rendered: when [data.dataset_id] is truthy, the next non-blank
    question is sent to the backend with that id. *)
Theorem upload_then_ask_uses_new_dataset
    (h h' : host) (f : file) (data : value) (input : jstring) (st : state) :
  fetch h (upload_request f) = Response true (Parsed data) ->
  nullish data = false ->
  truthy (member data (lit "dataset_id")) = true ->
  trim input <> [] ->
  let uploaded := run (handleUpload h (Some f)) st in
  exists rest,
    log (run (askQuestion h' input) uploaded)
    = log uploaded
        ++ Fetch (ask_request (member data (lit "dataset_id")) (trim input))
        :: rest.
Proof.
  intros E Hn Hid Hq uploaded.
  pose proof (handleUpload_dataset_id h f data st E Hn) as Hd.
  fold uploaded in Hd.
  destruct (askQuestion_log h' input uploaded Hq) as (rest & El & _).
  - rewrite Hd. exact Hid.
  - exists rest. rewrite El, Hd. reflexivity.
Qed.

Lemma upload_then_ask_uses_new_dataset_witness :
  let h := host_answering (Response true (Parsed example_upload)) (Throws []) in
  let uploaded := run (handleUpload h (Some sales_csv)) fresh_page in
  exists rest,
    log (run (askQuestion h (lit "totals?")) uploaded)
    = log uploaded ++ Fetch (ask_request (VStr (lit "d1")) (lit "totals?"))
        :: rest.
Proof.
  intros h.
  apply (upload_then_ask_uses_new_dataset h h sales_csv example_upload
           (lit "totals?") fresh_page).
  - reflexivity.
  - reflexivity.
  - reflexivity.
  - vm_compute; discriminate.
Defined.

(** X17.  A 2xx response whose body carries no usable [dataset_id]
    (missing, [null] or empty) overwrites [DATASET_ID] with it, also
    when an earlier upload had set one: the next non-blank question is
    answered by the alert "Upload a dataset first." and no request is
    sent. *)
Theorem upload_without_id_blocks_questions
    (h h' : host) (f : file) (data : value) (input : jstring) (st : state) :
  fetch h (upload_request f) = Response true (Parsed data) ->
  nullish data = false ->
  truthy (member data (lit "dataset_id")) = false ->
  trim input <> [] ->
  let uploaded := run (handleUpload h (Some f)) st in
  run (askQuestion h' input) uploaded
  = set_log (log uploaded ++ [Alert (lit "Upload a dataset first.")]) uploaded.
Proof.
  intros E Hn Hid Hq uploaded.
  pose proof (handleUpload_dataset_id h f data st E Hn) as Hd.
  fold uploaded in Hd. unfold run at 1.
  rewrite (askQuestion_no_dataset h' input uploaded Hq).
  - reflexivity.
  - rewrite Hd. exact Hid.
Qed.

Lemma upload_without_id_blocks_questions_witness :
  let data := VObj [(lit "meta", example_meta)] in
  let h := host_answering (Response true (Parsed data)) (Throws []) in
  let uploaded := run (handleUpload h (Some sales_csv)) page_with_chart in
  dropzone_p uploaded = lit "Upload complete! Ask a question below." /\
  run (askQuestion h (lit "totals?")) uploaded
  = set_log (log uploaded ++ [Alert (lit "Upload a dataset first.")]) uploaded.
Proof.
  intros data h uploaded. split; [reflexivity|].
  apply (upload_without_id_blocks_questions h h sales_csv data
           (lit "totals?") page_with_chart).
  - reflexivity.
  - reflexivity.
  - reflexivity.
  - vm_compute; discriminate.
Defined.

(** ** The drop zone, the Enter key and the report button *)

Lemma jstring_eqb_eq (a b : jstring) : jstring_eqb a b = true <-> a = b.
Proof.
  revert b; induction a as [|x a IH]; intros [|y b]; simpl;
    try (split; congruence).
  unfold code_unit_eqb.
  rewrite andb_true_iff, N.eqb_eq, IH. split.
  - intros [-> ->]; reflexivity.
  - intros E; injection E; auto.
Qed.

(** X18.  A drop always calls [preventDefault] and clears the border
    highlight.  When files were dropped they become the files of the
    input and the first of them, and only it, is uploaded: the page
    ends as [handleUpload] on that file leaves it, with one request
    whatever the number of files.  An empty drop uploads nothing and
    leaves the page and the input's files alone. *)
Theorem dropzone_drop_uploads_first_file
    (h : host) (dropped : list file) (b : browser) :
  let b' := fst (dropzone_drop h dropped b) in
  snd (dropzone_drop h dropped b) = true /\
  dropzone_borderColor b' = [] /\
  location_href b' = location_href b /\
  match dropped with
  | [] => page b' = page b /\ fileInput_files b' = fileInput_files b
  | f :: others =>
      fileInput_files b' = f :: others /\
      page b' = run (handleUpload h (Some f)) (page b) /\
      exists rest,
        log (page b') = log (page b) ++ Fetch (upload_request f) :: rest /\
        forallb (fun e => negb (is_fetch e)) rest = true
  end.
Proof.
  destruct dropped as [|f others]; simpl.
  - repeat split.
  - repeat split. exact (handleUpload_log h f (page b)).
Qed.

(** The branches of the report button. *)
Lemma downloadReport_click_cases (b : browser) :
  downloadReport_click b
  = if truthy (DATASET_ID (page b))
    then match to_string (DATASET_ID (page b)) with
         | Some id => set_location_href (lit "/api/report/" ++ id) b
         | None => b
         end
    else set_page
           (set_log (log (page b) ++ [Alert (lit "Upload a dataset first.")])
              (page b)) b.
Proof.
  unfold downloadReport_click.
  destruct (truthy (DATASET_ID (page b))); reflexivity.
Qed.

Lemma handleUpload_failed_state
    (h : host) (f : file) (st : state) (message : jstring) :
  failure_message h (lit "Upload failed") (fetch h (upload_request f))
  = Some message ->
  run (handleUpload h (Some f)) st
  = set_dropzone_p (lit "Error: " ++ message)
      (set_log (log st ++ [Fetch (upload_request f); ConsoleError message]) st).
Proof.
  intros Hf. unfold run, handleUpload, bind at 1, modify at 1, try_catch.
  rewrite (upload_try_fails h f message _ Hf).
  destruct st. unfold upload_catch, bind, emit, modify. simpl.
  unfold set_dropzone_p, set_log. simpl. rewrite <- app_assoc. reflexivity.
Qed.

(** X19.  A failed upload does not enable the report: when no dataset
    id was set before and the upload fails (rejection, unparsable body
    or a response that is not 2xx), a click on the report button raises
    the alert "Upload a dataset first.", right after the two entries of
    the failed upload, and navigates nowhere. *)
Theorem failed_upload_then_report_alerts
    (h : host) (f : file) (others : list file) (b : browser)
    (message : jstring) :
  fileInput_files b = f :: others ->
  truthy (DATASET_ID (page b)) = false ->
  failure_message h (lit "Upload failed") (fetch h (upload_request f))
  = Some message ->
  let b' := downloadReport_click (fileInput_change h b) in
  location_href b' = location_href b /\
  log (page b')
  = log (page b) ++ [Fetch (upload_request f); ConsoleError message;
                     Alert (lit "Upload a dataset first.")].
Proof.
  intros Hfiles Hid Hf b'. subst b'.
  assert (E : page (fileInput_change h b)
              = set_dropzone_p (lit "Error: " ++ message)
                  (set_log (log (page b) ++ [Fetch (upload_request f);
                                             ConsoleError message]) (page b))).
  { unfold fileInput_change, upload_selected. rewrite Hfiles. simpl.
    apply (handleUpload_failed_state h f (page b) message Hf). }
  assert (Hd : truthy (DATASET_ID (page (fileInput_change h b))) = false).
  { rewrite E. exact Hid. }
  assert (L : location_href (fileInput_change h b) = location_href b)
    by reflexivity.
  rewrite downloadReport_click_cases, Hd.
  remember (fileInput_change h b) as uploaded eqn:Hu. clear Hu.
  simpl. rewrite L, E. simpl. rewrite <- app_assoc. split; reflexivity.
Qed.

Lemma failed_upload_then_report_alerts_witness :
  let h := host_answering (Rejected (lit "Failed to fetch")) (Throws []) in
  let b' := downloadReport_click
              (fileInput_change h (set_fileInput_files [sales_csv] fresh_browser)) in
  location_href b' = lit "/" /\
  log (page b')
  = [Fetch (upload_request sales_csv); ConsoleError (lit "Failed to fetch");
     Alert (lit "Upload a dataset first.")].
Proof.
  intros h.
  apply (failed_upload_then_report_alerts h sales_csv []
           (set_fileInput_files [sales_csv] fresh_browser)
           (lit "Failed to fetch")).
  - reflexivity.
  - reflexivity.
  - reflexivity.
Defined.

(** X20.  After an upload whose response is 2xx with an object body
    and a truthy [dataset_id], a click on the report button raises no
    alert and leaves the page alone.  When the id has a text it
    navigates to "/api/report/" followed by that text, inserted as it
    is (also when the [meta] of the upload could not be rendered); when
    the id has no text the template literal of line 188 throws and
    nothing is assigned. *)
Theorem upload_then_report_navigates
    (h : host) (f : file) (others : list file) (data : value) (b : browser) :
  fileInput_files b = f :: others ->
  fetch h (upload_request f) = Response true (Parsed data) ->
  nullish data = false ->
  truthy (member data (lit "dataset_id")) = true ->
  let uploaded := fileInput_change h b in
  location_href (downloadReport_click uploaded)
  = match to_string (member data (lit "dataset_id")) with
    | Some id => lit "/api/report/" ++ id
    | None => location_href b
    end /\
  page (downloadReport_click uploaded) = page uploaded.
Proof.
  intros Hf E Hn Hid uploaded.
  assert (Hd : DATASET_ID (page uploaded) = member data (lit "dataset_id")).
  { unfold uploaded, fileInput_change, upload_selected. rewrite Hf. simpl.
    exact (handleUpload_dataset_id h f data (page b) E Hn). }
  unfold downloadReport_click. rewrite Hd, Hid. simpl.
  destruct (to_string (member data (lit "dataset_id"))); split; reflexivity.
Qed.

Lemma upload_then_report_navigates_witness :
  let data := VObj [(lit "dataset_id",
                     VNum {| number_text := lit "1e+21";
                             number_truthy := true |});
                    (lit "meta", example_meta)] in
  let h := host_answering (Response true (Parsed data)) (Throws []) in
  location_href
    (downloadReport_click
       (fileInput_change h (set_fileInput_files [sales_csv] fresh_browser)))
  = lit "/api/report/1e+21".
Proof.
  intros data h.
  destruct (upload_then_report_navigates h sales_csv [] data
              (set_fileInput_files [sales_csv] fresh_browser)) as [Hl _].
  - reflexivity.
  - reflexivity.
  - reflexivity.
  - reflexivity.
  - exact Hl.
Defined.

(** X21.  Only the Enter key submits: when the [keydown] listener
    calls [preventDefault] or changes the page at all, the key was
    "Enter"; and Enter on an input of white space alone is swallowed
    without any effect on the page. *)
Theorem question_keydown_only_enter
    (h : host) (key input : jstring) (st : state) :
  (snd (question_keydown h key input st) = true \/
   fst (question_keydown h key input st) <> st ->
   key = lit "Enter") /\
  (forallb is_white_space input = true ->
   question_keydown h (lit "Enter") input st = (st, true)).
Proof.
  split.
  - unfold question_keydown.
    destruct (jstring_eqb key (lit "Enter")) eqn:Hk.
    + intros _. apply jstring_eqb_eq. exact Hk.
    + simpl. intros [H|H]; [discriminate | congruence].
  - intros Hw. unfold question_keydown. simpl jstring_eqb. cbv iota.
    apply trim_nil_iff in Hw. unfold run.
    rewrite (askQuestion_blank h input st Hw). reflexivity.
Qed.

Lemma question_keydown_only_enter_witness :
  question_keydown (host_answering (Rejected []) (Throws [])) (lit "Enter")
    [32; 32]%N page_with_chart = (page_with_chart, true).
Proof.
  apply (question_keydown_only_enter
           (host_answering (Rejected []) (Throws [])) (lit "Enter") [32; 32]%N
           page_with_chart).
  reflexivity.
Defined.

(** X22.  A 2xx upload response whose body is [null] is treated as a
    failure: reading [dataset_id] throws before the assignment, so
    [DATASET_ID] and the rest of the page are what they were, the drop
    zone shows "Error: " with the TypeError, and the log holds the
    request and the error. *)
Theorem handleUpload_null_body_is_error (h : host) (f : file) (st : state) :
  fetch h (upload_request f) = Response true (Parsed VNull) ->
  run (handleUpload h (Some f)) st
  = set_dropzone_p (lit "Error: " ++ TypeError_message h (lit "dataset_id"))
      (set_log (log st ++ [Fetch (upload_request f);
                           ConsoleError (TypeError_message h (lit "dataset_id"))])
         st).
Proof.
  intros E. unfold run. rewrite (handleUpload_accepts h f VNull st E).
  unfold try_catch, upload_accept, bind at 1, lift at 1, get. simpl nullish.
  cbv iota. destruct st. unfold upload_catch, bind, emit, modify. simpl.
  unfold set_dropzone_p, set_log. simpl. rewrite <- app_assoc. reflexivity.
Qed.

Lemma handleUpload_null_body_is_error_witness :
  DATASET_ID (run (handleUpload
                     (host_answering (Response true (Parsed VNull)) (Throws []))
                     (Some sales_csv)) page_with_chart)
  = VStr (lit "d1").
Proof.
  rewrite (handleUpload_null_body_is_error
             (host_answering (Response true (Parsed VNull)) (Throws []))
             sales_csv page_with_chart).
  - reflexivity.
  - reflexivity.
Defined.

